(** * Blood-bank forecasting engine: a shallow embedding of [app.py]

    The development follows [run_simulation] (app.py, section 5) and the
    scalar guards computed from its result (days of supply, coverage ratio,
    per-blood-type coverage).

    Modelling choices.
    - Python and numpy floats are idealised as exact rationals ([Q]); rounding
      error of binary64 arithmetic is outside the model.  [int(x)] is
      truncation toward zero.
    - The numpy generator, [np.sqrt] and the pandas date parser are library
      code: they are the fields of the class [Runtime].  [np.polyfit] of
      degree one is the closed-form least-squares line, and
      [resample('MS').sum()] is month binning with empty bins summing to zero.
    - The process-wide generator state, the wall clock and the caller's
      DataFrame are explicit: [run_simulation] takes them and returns the
      generator state and the DataFrame it leaves behind.

    Domain.  A [created_at] cell is text or a timestamp; missing cells (NaT)
    are not represented.  Rationals have no infinity and no NaN, so [int()]
    never fails here, and a comparison made on a rounded double may fall on
    the other side of a threshold when the exact value is within rounding of
    it. *)

From Stdlib Require Import ZArith QArith Qabs String Ascii Bool List Lia Lqa.
From Stdlib Require Import Sorted Permutation.
From Stdlib Require Import DecimalString DecimalN.
Import ListNotations.

Local Open Scope Z_scope.

(** ** Python values and control *)

Module Py.

Inductive exn : Type :=
| ParserError        (* pd.to_datetime on a string that is no date *)
| ZeroDivisionError  (* x / 0 *)
| IndexError.        (* .iloc[-1] on an empty frame *)

Inductive outcome (A : Type) : Type :=
| Returned (a : A)
| Raised (e : exn).
Arguments Returned {A} a.
Arguments Raised {A} e.

Definition bind {A B : Type} (o : outcome A) (k : A -> outcome B) : outcome B :=
  match o with
  | Returned a => k a
  | Raised e => Raised e
  end.

Definition raises {A : Type} (o : outcome A) : bool :=
  match o with
  | Returned _ => false
  | Raised _ => true
  end.

(** A float that may be [float('inf')]. *)
Inductive pyfloat : Type :=
| Fin (q : Q)
| Inf.

(** [a < b] on floats. *)
Definition lt (a b : Q) : bool := negb (Qle_bool b a).

(** [max(a, b)]: the first argument unless the second is greater. *)
Definition max (a b : Q) : Q := if lt a b then b else a.

(** [int(x)]: truncation toward zero. *)
Definition int (x : Q) : Z := Z.quot (Qnum x) (Zpos (Qden x)).

(** [x / y]; a zero divisor raises. *)
Definition div (x y : Q) : outcome Q :=
  if Qeq_bool y 0 then Raised ZeroDivisionError else Returned (x / y)%Q.

End Py.
Import Py.

Notation "x <- c ;; k" := (Py.bind c (fun x => k))
  (at level 61, c at next level, right associativity).

(** ** Calendar: timestamps, month arithmetic and the ['%b %Y'] label *)

Module Calendar.

Record Timestamp : Type := mkTimestamp { year : Z; month : Z; day : Z }.

(** Months since year 0; January of year [y] is [12 * y]. *)
Definition month_ord (t : Timestamp) : Z := 12 * year t + (month t - 1).

(** First day of the month with ordinal [k] (the label of an ['MS'] bin). *)
Definition month_start (k : Z) : Timestamp :=
  {| year := k / 12; month := k mod 12 + 1; day := 1 |}.

Definition is_leap (y : Z) : bool :=
  ((y mod 4 =? 0) && negb (y mod 100 =? 0)) || (y mod 400 =? 0).

Definition days_in_month (y m : Z) : Z :=
  if m =? 2 then (if is_leap y then 29 else 28)
  else if (m =? 4) || (m =? 6) || (m =? 9) || (m =? 11) then 30
  else 31.

(** [t + pd.DateOffset(months=m)]: the month moves, the day is kept unless
    the target month is shorter. *)
Definition add_months (t : Timestamp) (m : Z) : Timestamp :=
  let k := month_ord t + m in
  let y := k / 12 in
  let mo := k mod 12 + 1 in
  {| year := y; month := mo; day := Z.min (day t) (days_in_month y mo) |}.

Definition month_abbr (m : Z) : string :=
  match m with
  | 1 => "Jan" | 2 => "Feb" | 3 => "Mar" | 4 => "Apr"
  | 5 => "May" | 6 => "Jun" | 7 => "Jul" | 8 => "Aug"
  | 9 => "Sep" | 10 => "Oct" | 11 => "Nov" | _ => "Dec"
  end%string.

(** [t.strftime("%b %Y")]. *)
Definition strftime_bY (t : Timestamp) : string :=
  (month_abbr (month t) ++ " " ++ NilZero.string_of_uint (N.to_uint (Z.to_N (year t))))%string.

End Calendar.
Import Calendar.

(** ** The runtime the engine calls into *)

Class Runtime : Type := {
  (** state of numpy's process-wide generator *)
  rng : Type;
  (** the state [np.random.seed(s)] installs *)
  np_random_seed : Z -> rng;
  (** one standard normal variate, and the state after the draw *)
  standard_normal : rng -> Q * rng;
  (** [np.sqrt] *)
  np_sqrt : Q -> Q;
  (** the pandas date parser on one string; [None] when it rejects it *)
  parse_datetime : string -> option Timestamp
}.

(** [np.random.normal(loc, scale)]. *)
Definition np_random_normal {R : Runtime} (loc scale : Q) (g : rng) : Q * rng :=
  let (z, g') := standard_normal g in ((loc + scale * z)%Q, g').

(** ** Data model *)

(** A cell of the [created_at] column: still text, or already a timestamp. *)
Inductive cell : Type :=
| Raw (s : string)
| Stamp (t : Timestamp).

(** One row of the donations frame, restricted to the columns that
    [run_simulation] reads or writes. *)
Record Row : Type := mkRow { created_at : cell; pints_donated : Q }.

Definition DataFrame : Type := list Row.

(** One row of [history]: the month start and the pints donated in it. *)
Record MonthlyPoint : Type :=
  mkMonthly { hist_created_at : Timestamp; hist_pints_donated : Q }.

(** One row of [forecast_df]. *)
Record ForecastPoint : Type := mkForecast {
  Date : string;
  Inventory : Z;
  MonthlySupply : Z;
  MonthlyDemand : Z
}.

(** ** 1. Prepare history (lines 161-162) *)

Definition to_datetime_cell {R : Runtime} (c : cell) : outcome Timestamp :=
  match c with
  | Stamp t => Returned t
  | Raw s =>
      match parse_datetime s with
      | Some t => Returned t
      | None => Raised ParserError
      end
  end.

(** [pd.to_datetime(col)]: every cell converts or the call raises. *)
Fixpoint pd_to_datetime {R : Runtime} (col : list cell) : outcome (list Timestamp) :=
  match col with
  | [] => Returned []
  | c :: rest =>
      t <- to_datetime_cell c ;;
      ts <- pd_to_datetime rest ;;
      Returned (t :: ts)
  end.

(** [df['created_at'] = ts]: the column is overwritten in the caller's frame. *)
Fixpoint assign_created_at (df : DataFrame) (ts : list Timestamp) : DataFrame :=
  match df, ts with
  | r :: df', t :: ts' =>
      {| created_at := Stamp t; pints_donated := pints_donated r |}
        :: assign_created_at df' ts'
  | _, _ => []
  end.

Definition Qsum (l : list Q) : Q := fold_right Qplus 0%Q l.

(** Pints of the records that fall in the month with ordinal [k]. *)
Definition bin_sum (k : Z) (recs : list (Timestamp * Q)) : Q :=
  fold_right
    (fun r acc => if month_ord (fst r) =? k then (snd r + acc)%Q else acc)
    0%Q recs.

Definition zrange (lo : Z) (n : nat) : list Z :=
  map (fun i => lo + Z.of_nat i) (seq 0 n).

(** [set_index('created_at').resample('MS')['pints_donated'].sum().reset_index()]:
    one bin per calendar month from the earliest to the latest record. *)
Definition resample_MS_sum (recs : list (Timestamp * Q)) : list MonthlyPoint :=
  match recs with
  | [] => []
  | r :: rest =>
      let lo := fold_right (fun x acc => Z.min (month_ord (fst x)) acc)
                           (month_ord (fst r)) rest in
      let hi := fold_right (fun x acc => Z.max (month_ord (fst x)) acc)
                           (month_ord (fst r)) rest in
      map (fun k => {| hist_created_at := month_start k;
                       hist_pints_donated := bin_sum k recs |})
          (zrange lo (Z.to_nat (hi - lo + 1)))
  end.

Definition prepare_history {R : Runtime} (df : DataFrame)
  : outcome (DataFrame * list MonthlyPoint) :=
  ts <- pd_to_datetime (map created_at df) ;;
  Returned (assign_created_at df ts,
            resample_MS_sum (combine ts (map pints_donated df))).

(** ** 2. Detect trend and volatility (lines 165-183) *)

Definition lookback : nat := 24.

(** [history.iloc[-lookback:]] when the history is longer than the window,
    the whole history otherwise. *)
Definition recent_window (history : list MonthlyPoint) : list MonthlyPoint :=
  if (lookback <? length history)%nat
  then skipn (length history - lookback) history
  else history.

Definition Qnat (n : nat) : Q := inject_Z (Z.of_nat n).

(** [np.arange(n)]. *)
Definition arange (n : nat) : list Q := map Qnat (seq 0 n).

Fixpoint zip_with (f : Q -> Q -> Q) (xs ys : list Q) : list Q :=
  match xs, ys with
  | x :: xs', y :: ys' => f x y :: zip_with f xs' ys'
  | _, _ => []
  end.

(** [np.polyfit(xs, ys, 1)] as the least-squares line: (slope, intercept). *)
Definition np_polyfit1 (xs ys : list Q) : Q * Q :=
  let n := Qnat (length xs) in
  let sx := Qsum xs in
  let sy := Qsum ys in
  let sxx := Qsum (zip_with Qmult xs xs) in
  let sxy := Qsum (zip_with Qmult xs ys) in
  let slope := ((n * sxy - sx * sy) / (n * sxx - sx * sx))%Q in
  (slope, ((sy - slope * sx) / n)%Q).

(** [Series.std()]: the sample standard deviation (one degree of freedom
    removed). *)
Definition series_std {R : Runtime} (l : list Q) : Q :=
  let n := Qnat (length l) in
  let mean := (Qsum l / n)%Q in
  np_sqrt (Qsum (map (fun r => (r - mean) * (r - mean)) l) / (n - 1))%Q.

(** The pair (slope, volatility) of section 2 of [run_simulation]. *)
Definition detect_trend {R : Runtime} (history : list MonthlyPoint) : Q * Q :=
  let recent := recent_window history in
  let idx := arange (length recent) in
  let pints := map hist_pints_donated recent in
  if (1 <? length recent)%nat then
    let (slope, intercept) := np_polyfit1 idx pints in
    let predicted_values := map (fun i => slope * i + intercept)%Q idx in
    let residuals := zip_with Qminus pints predicted_values in
    (slope, series_std residuals)
  else (0%Q, 10%Q).

(** ** 3. Forecast generation (lines 186-231) *)

Definition demand_ratio : Q := 95 # 100.

(** The values one iteration of the loop computes, before [int] is applied. *)
Record Step : Type := mkStep {
  next_date : Timestamp;
  base_supply : Q;          (* after the clamp at zero *)
  sim_supply : Q;
  demand_level : Q;         (* base_demand + demand_noise *)
  sim_demand : Q;
  current_inventory : Q     (* the running balance after the update *)
}.

(** The body of the [for m in range(...)] loop: from the balance and the
    generator state before the iteration to the step's values and the
    generator state after it.  The supply draw comes first. *)
Definition forecast_step {R : Runtime}
    (last_actual_supply slope volatility shock_pct boost_pct waste_pct : Q)
    (current_date : Timestamp) (m : Z) (inventory : Q) (g : rng) : Step * rng :=
  let trend_component := (last_actual_supply + slope * inject_Z m)%Q in
  let (random_bounce, g1) := np_random_normal 0 (volatility * (3 # 10)) g in
  let base := Py.max (trend_component + random_bounce) 0 in
  let supply := (base * (1 + boost_pct / 100) * (1 - waste_pct / 100))%Q in
  let base_demand := (base * demand_ratio)%Q in
  let (demand_noise, g2) := np_random_normal 0 (volatility * (15 # 100)) g1 in
  let demand := ((base_demand + demand_noise) * (1 + shock_pct / 100))%Q in
  ({| next_date := add_months current_date m;
      base_supply := base;
      sim_supply := supply;
      demand_level := (base_demand + demand_noise)%Q;
      sim_demand := demand;
      current_inventory := (inventory + (supply - demand))%Q |}, g2).

Fixpoint forecast_loop {R : Runtime}
    (last_actual_supply slope volatility shock_pct boost_pct waste_pct : Q)
    (current_date : Timestamp) (ms : list Z) (inventory : Q) (g : rng)
  : list Step * rng :=
  match ms with
  | [] => ([], g)
  | m :: ms' =>
      let (s, g1) := forecast_step last_actual_supply slope volatility
                       shock_pct boost_pct waste_pct current_date m inventory g in
      let (rest, g2) := forecast_loop last_actual_supply slope volatility
                          shock_pct boost_pct waste_pct current_date ms'
                          (current_inventory s) g1 in
      (s :: rest, g2)
  end.

(** [range(a, b)]. *)
Definition py_range (a b : Z) : list Z := zrange a (Z.to_nat (b - a)).

(** [history['pints_donated'].iloc[-1] if not history.empty else 1000]. *)
Definition last_actual_supply_of (history : list MonthlyPoint) : Q :=
  match rev history with
  | p :: _ => hist_pints_donated p
  | [] => 1000%Q
  end.

(** [history['created_at'].iloc[-1] if not history.empty else datetime.now()]. *)
Definition current_date_of (now : Timestamp) (history : list MonthlyPoint) : Timestamp :=
  match rev history with
  | p :: _ => hist_created_at p
  | [] => now
  end.

(** Sections 2 and 3 on a prepared history: the generator is reseeded with 42
    whatever its state was, then the loop runs. *)
Definition projection {R : Runtime} (now : Timestamp) (history : list MonthlyPoint)
    (months_ahead : Z) (shock_pct boost_pct waste_pct : Q) : list Step * rng :=
  let (slope, volatility) := detect_trend history in
  let last_actual_supply := last_actual_supply_of history in
  forecast_loop last_actual_supply slope volatility shock_pct boost_pct waste_pct
    (current_date_of now history)
    (py_range 1 (months_ahead + 1))
    last_actual_supply
    (np_random_seed 42).

(** The dictionary appended to [forecast_data]. *)
Definition emit (s : Step) : ForecastPoint :=
  {| Date := strftime_bY (next_date s);
     Inventory := Py.int (current_inventory s);
     MonthlySupply := Py.int (sim_supply s);
     MonthlyDemand := Py.int (sim_demand s) |}.

Definition Zsum (l : list Z) : Z := fold_right Z.add 0 l.

(** [col.mean() if not forecast_df.empty else 0]. *)
Definition column_mean (col : list Z) : Q :=
  match col with
  | [] => 0%Q
  | _ => (inject_Z (Zsum col) / Qnat (length col))%Q
  end.

Definition SimResult : Type := (list ForecastPoint * Q * Q)%type.

(** [run_simulation(df, months_ahead, shock_pct, boost_pct, waste_pct)] run
    at wall-clock time [now] with the process-wide generator in state [g].
    Besides its result the call leaves a generator state and a content of the
    caller's frame. *)
Definition run_simulation {R : Runtime} (now : Timestamp) (g : rng) (df : DataFrame)
    (months_ahead : Z) (shock_pct boost_pct waste_pct : Q)
  : outcome SimResult * (rng * DataFrame) :=
  match prepare_history df with
  | Raised e => (Raised e, (g, df))
  | Returned (df', history) =>
      let (steps, g') :=
        projection now history months_ahead shock_pct boost_pct waste_pct in
      let forecast_df := map emit steps in
      let avg_sup := column_mean (map MonthlySupply forecast_df) in
      let avg_dem := column_mean (map MonthlyDemand forecast_df) in
      (Returned (forecast_df, avg_sup, avg_dem), (g', df'))
  end.

(** ** Derived scalars (lines 280-282, 733-737, 821) *)

(** [forecast_df.iloc[-1]['Inventory']]. *)
Definition final_inventory (forecast_df : list ForecastPoint) : outcome Z :=
  match rev forecast_df with
  | p :: _ => Returned (Inventory p)
  | [] => Raised IndexError
  end.

(** [(final_inventory / (monthly_dem/30)) if monthly_dem > 0 else float('inf')]. *)
Definition days_of_supply (final_inv : Z) (monthly_dem : Q) : outcome pyfloat :=
  if Py.lt 0 monthly_dem then
    daily <- Py.div monthly_dem 30 ;;
    d <- Py.div (inject_Z final_inv) daily ;;
    Returned (Fin d)
  else Returned Inf.

(** [(monthly_sup / monthly_dem * 100) if monthly_dem > 0 else 0]. *)
Definition coverage_ratio (monthly_sup monthly_dem : Q) : outcome Q :=
  if Py.lt 0 monthly_dem then
    r <- Py.div monthly_sup monthly_dem ;;
    Returned (r * 100)%Q
  else Returned 0%Q.

(** The units allotted to one blood type: [int(monthly_sup * ratio)] and
    [int(monthly_dem * ratio)]. *)
Definition allocated (monthly : Q) (ratio : Q) : Z := Py.int (monthly * ratio).

(** [t_sup / t_dem if t_dem > 0 else 1.0] for the blood type with share
    [ratio]. *)
Definition coverage (monthly_sup monthly_dem ratio : Q) : outcome Q :=
  let t_sup := allocated monthly_sup ratio in
  let t_dem := allocated monthly_dem ratio in
  if 0 <? t_dem then Py.div (inject_Z t_sup) (inject_Z t_dem)
  else Returned 1%Q.

(** ** A concrete runtime, for evaluating the engine on examples *)

Module Sample.

(** Square root to six decimals (exact on squares of such numbers). *)
Definition sqrt6 (q : Q) : Q :=
  Qmake (Z.sqrt (Qnum q * 10 ^ 12 / Zpos (Qden q))) (10 ^ 6)%positive.

Definition digit_of (c : ascii) : option Z :=
  let n := Z.of_nat (nat_of_ascii c) in
  if (48 <=? n) && (n <=? 57) then Some (n - 48) else None.

Fixpoint number_of (s : string) (acc : Z) : option Z :=
  match s with
  | EmptyString => Some acc
  | String c s' =>
      match digit_of c with
      | Some d => number_of s' (10 * acc + d)
      | None => None
      end
  end.

Definition is_dash (o : option ascii) : bool :=
  match o with
  | Some c => Ascii.eqb c "-"%char
  | None => false
  end.

(** Dates written [YYYY-MM-DD]. *)
Definition parse_iso (s : string) : option Timestamp :=
  if (String.length s =? 10)%nat && is_dash (String.get 4 s) && is_dash (String.get 7 s)
  then
    match number_of (substring 0 4 s) 0,
          number_of (substring 5 2 s) 0,
          number_of (substring 8 2 s) 0 with
    | Some y, Some m, Some d =>
        if (1 <=? m) && (m <=? 12) && (1 <=? d) && (d <=? days_in_month y m)
        then Some {| year := y; month := m; day := d |}
        else None
    | _, _, _ => None
    end
  else None.

(** A generator that replays the stream [draws]: its state is the number of
    variates drawn since the last seeding. *)
Definition replay (draws : nat -> Q) : Runtime :=
  {| rng := nat;
     np_random_seed := fun _ => O;
     standard_normal := fun n => (draws n, S n);
     np_sqrt := sqrt6;
     parse_datetime := parse_iso |}.

(** Noise switched off. *)
Definition quiet : Runtime := replay (fun _ => 0%Q).

(** Every draw one standard deviation below the mean. *)
Definition low : Runtime := replay (fun _ => (-1)%Q).

(** The first 24 variates of the stream that [np.random.seed(42)] starts, to
    eight decimals (a horizon of 12 months uses 24 draws); later draws are
    taken as 0. *)
Definition seed42_draws : list Q :=
  [ 49671415 # 100000000; - (13826430 # 100000000);
    64768854 # 100000000; 152302986 # 100000000;
    - (23415337 # 100000000); - (23413696 # 100000000);
    157921282 # 100000000; 76743473 # 100000000;
    - (46947439 # 100000000); 54256004 # 100000000;
    - (46341769 # 100000000); - (46572975 # 100000000);
    24196227 # 100000000; - (191328024 # 100000000);
    - (172491783 # 100000000); - (56228753 # 100000000);
    - (101283112 # 100000000); 31424733 # 100000000;
    - (90802408 # 100000000); - (141230370 # 100000000);
    146564877 # 100000000; - (22577630 # 100000000);
    6752820 # 100000000; - (142474819 # 100000000) ]%Q.

Definition seed42 : Runtime := replay (fun n => nth n seed42_draws 0%Q).

End Sample.

(** ** The dashboard around the engine *)

(** *** Global metrics and status (lines 280-296, 348-370) *)

(** [x < c] and [x > c] for a float that may be infinite. *)
Definition pyfloat_lt (x : pyfloat) (c : Q) : bool :=
  match x with
  | Fin q => Py.lt q c
  | Inf => false
  end.

Definition pyfloat_gt (x : pyfloat) (c : Q) : bool :=
  match x with
  | Fin q => Py.lt c q
  | Inf => true
  end.

(** Lines 280-282: the final inventory, the monthly balance and the days of
    supply, read off the forecast and its two means. *)
Definition global_metrics (forecast_df : list ForecastPoint) (monthly_sup monthly_dem : Q)
  : outcome (Z * Q * pyfloat) :=
  final_inv <- final_inventory forecast_df ;;
  days <- days_of_supply final_inv monthly_dem ;;
  Returned (final_inv, (monthly_sup - monthly_dem)%Q, days).

(** Lines 291-296: background colour and text of the header badge. *)
Definition status_badge (monthly_balance : Q) (days : pyfloat) : string * string :=
  if Qle_bool 0 monthly_balance then ("#238636", "INVENTORY GROWING")%string
  else if pyfloat_gt days 10 then ("#d29922", "SLOW DEPLETION")%string
  else ("#da3633", "CRITICAL DEPLETION")%string.

(** Lines 348-357: colour and label of the net-flow card. *)
Definition net_card (monthly_balance : Q) : string * string :=
  if Qle_bool 0 monthly_balance then ("#4ade80", "Surplus")%string
  else ("#f87171", "Deficit")%string.

(** Lines 359-370: colour of the days-of-supply card (red below 7 days,
    amber below 14, green otherwise). *)
Definition dos_color (days : pyfloat) : string :=
  if pyfloat_lt days 7 then "#f87171"%string
  else if pyfloat_lt days 14 then "#fbbf24"%string
  else "#4ade80"%string.

(** *** Utilization tab (lines 816-829, 838-846) *)

(** Lines 824-829: colour and status of the gauge. *)
Definition health (ratio : Q) : string * string :=
  if Qle_bool 90 ratio && Qle_bool ratio 120 then ("#39d353", "OPTIMAL")%string
  else ("#fbbf24", "IMBALANCED")%string.

(** How a waterfall bar relates to the running level: it sets it, moves it,
    or shows it. *)
Inductive measure : Type := absolute | relative | total.

(** Lines 816-818 and 841-846: the bars handed to the waterfall chart,
    starting stock, new donations, transfused, wastage, end inventory. *)
Definition waterfall_bars (monthly_sup monthly_dem wastage_rate : Q)
  : list (measure * Q) :=
  let start_inv := (monthly_sup * (25 # 100))%Q in
  let used := (- monthly_dem)%Q in
  let waste := (- (monthly_sup * (wastage_rate / 100)))%Q in
  [ (absolute, start_inv); (relative, monthly_sup); (relative, used);
    (relative, waste); (total, 0%Q) ].

(** The level each bar of a waterfall chart ends at. *)
Fixpoint waterfall_levels (level : Q) (bars : list (measure * Q)) : list Q :=
  match bars with
  | [] => []
  | (absolute, y) :: rest => y :: waterfall_levels y rest
  | (relative, y) :: rest => (level + y)%Q :: waterfall_levels (level + y)%Q rest
  | (total, _) :: rest => level :: waterfall_levels level rest
  end.

(** *** Map clicks (lines 329-342 and 622-636) *)

(** [l.remove(x)]: the first occurrence goes; [None] stands for the
    [ValueError] of an absent element. *)
Fixpoint list_remove (x : string) (l : list string) : option (list string) :=
  match l with
  | [] => None
  | y :: l' =>
      if String.eqb y x then Some l'
      else option_map (cons y) (list_remove x l')
  end.

(** The toggle of a clicked state in the list of selected states; a click
    without a state name (the empty string) changes nothing. *)
Definition toggle_state (clicked_state : string) (current_pills : list string)
  : option (list string) :=
  if String.eqb clicked_state "" then Some current_pills
  else if existsb (String.eqb clicked_state) current_pills
       then list_remove clicked_state current_pills
       else Some (current_pills ++ [clicked_state]).

(** *** Trend chart (line 656) *)

Definition month_of_abbr (s : string) : option Z :=
  if String.eqb s "Jan" then Some 1
  else if String.eqb s "Feb" then Some 2
  else if String.eqb s "Mar" then Some 3
  else if String.eqb s "Apr" then Some 4
  else if String.eqb s "May" then Some 5
  else if String.eqb s "Jun" then Some 6
  else if String.eqb s "Jul" then Some 7
  else if String.eqb s "Aug" then Some 8
  else if String.eqb s "Sep" then Some 9
  else if String.eqb s "Oct" then Some 10
  else if String.eqb s "Nov" then Some 11
  else if String.eqb s "Dec" then Some 12
  else None.

(** [pd.to_datetime(s, format="%b %Y")] on one label: a month abbreviation,
    a space and a four-digit year give the first day of that month. *)
Definition strptime_bY (s : string) : option Timestamp :=
  if (String.length s =? 8)%nat
     && match String.get 3 s with
        | Some c => Ascii.eqb c " "%char
        | None => false
        end
  then
    match month_of_abbr (substring 0 3 s),
          NilZero.uint_of_string (substring 4 4 s) with
    | Some m, Some d => Some {| year := Z.of_N (N.of_uint d); month := m; day := 1 |}
    | _, _ => None
    end
  else None.

(** *** Blood-type tab (lines 730-757) *)

(** The group keys of a column: its distinct values, in ascending order. *)
Fixpoint insert_key (k : string) (ks : list string) : list string :=
  match ks with
  | [] => [k]
  | k' :: rest =>
      if String.leb k k' then k :: ks else k' :: insert_key k rest
  end.

Definition group_keys (col : list string) : list string :=
  fold_right insert_key [] (nodup string_dec col).

(** [df.groupby('blood_group')['pints_donated'].sum()] on the two columns it
    reads. *)
Definition groupby_sum (rows : list (string * Q)) : list (string * Q) :=
  map (fun k => (k, Qsum (map snd (filter (fun r => String.eqb (fst r) k) rows))))
      (group_keys (map fst rows)).

(** Line 730: each group's share of the total.  With a total of zero the
    shares are NaN or infinite, written [None]. *)
Definition supply_dist (rows : list (string * Q)) : list (string * option Q) :=
  let total := Qsum (map snd rows) in
  map (fun g => (fst g, if Qeq_bool total 0 then None else Some (snd g / total)%Q))
      (groupby_sum rows).

(** One row of [df_bar]. *)
Record TypeRow : Type := mkTypeRow {
  BloodType : string;     (* column "Type" *)
  Category : string;
  Units : Z;
  Coverage : Q
}.

(** Lines 733-740.  [None] stands for the exception that stops the script:
    [int()] of a NaN or infinite product. *)
Fixpoint type_data (monthly_sup monthly_dem : Q) (dist : list (string * option Q))
  : option (list TypeRow) :=
  match dist with
  | [] => Some []
  | (_, None) :: _ => None
  | (bg_name, Some ratio) :: rest =>
      match coverage monthly_sup monthly_dem ratio with
      | Raised _ => None
      | Returned c =>
          option_map
            (fun more =>
               {| BloodType := bg_name; Category := "Supply";
                  Units := allocated monthly_sup ratio; Coverage := c |}
               :: {| BloodType := bg_name; Category := "Demand";
                     Units := allocated monthly_dem ratio; Coverage := c |}
               :: more)
            (type_data monthly_sup monthly_dem rest)
      end
  end.

(** Lines 746-748: the first row of [df_bar] sorted by coverage gives the
    critical type and the lowest coverage in per cent.  The sort is pandas'
    and is a parameter; an empty [df_bar] has no [Coverage] column and the
    sort raises ([None]). *)
Definition priority (sort_values : list TypeRow -> list TypeRow)
    (df_bar : list TypeRow) : option (string * Q) :=
  match df_bar with
  | [] => None
  | _ =>
      match sort_values df_bar with
      | first :: _ => Some (BloodType first, (Coverage first * 100)%Q)
      | [] => None
      end
  end.

(** Lines 751-757: red banner for a deficit, amber otherwise. *)
Definition banner_color (lowest_coverage : Q) : string :=
  if Py.lt lowest_coverage 100 then "#ff4b4b"%string else "#fbbf24"%string.

(** Insertion sort by coverage, a sort to run [priority] with. *)
Fixpoint insert_by_coverage (r : TypeRow) (l : list TypeRow) : list TypeRow :=
  match l with
  | [] => [r]
  | r' :: rest =>
      if Qle_bool (Coverage r) (Coverage r') then r :: l
      else r' :: insert_by_coverage r rest
  end.

Definition sort_by_coverage (l : list TypeRow) : list TypeRow :=
  fold_right insert_by_coverage [] l.

(** ** Vocabulary of the statements *)

(** The running balance a step starts from: the last historical total for the
    first step, the balance the previous step left for the others. *)
Definition balance_before (start : Q) (steps : list Step) (i : nat) : Q :=
  match i with
  | O => start
  | S j =>
      match nth_error steps j with
      | Some s => current_inventory s
      | None => start
      end
  end.

(** The numbers of a forecast row, without its label. *)
Definition numbers (p : ForecastPoint) : Z * Z * Z :=
  (Inventory p, MonthlySupply p, MonthlyDemand p).

(** A result without its labels. *)
Definition unlabelled (o : outcome SimResult) : outcome (list (Z * Z * Z) * Q * Q) :=
  match o with
  | Returned (fc, avg_sup, avg_dem) => Returned (map numbers fc, avg_sup, avg_dem)
  | Raised e => Raised e
  end.


(** The generator state one draw later. *)
Definition advance {R : Runtime} (g : rng) : rng := snd (standard_normal g).

(** The generator state [k] draws after [np.random.seed(42)], and the
    variate drawn there. *)
Definition stream_state {R : Runtime} (k : nat) : rng :=
  Nat.iter k advance (np_random_seed 42).

Definition draw {R : Runtime} (k : nat) : Q := fst (standard_normal (stream_state k)).

(** Supply minus demand, summed over a run of steps. *)
Definition net_flow (steps : list Step) : Q :=
  Qsum (map (fun s => sim_supply s - sim_demand s)%Q steps).

(** The units of one category of [df_bar], added up. *)
Definition units_of (category : string) (df_bar : list TypeRow) : Z :=
  Zsum (map Units (filter (fun r => String.eqb (Category r) category) df_bar)).

(** The year prints with four digits. *)
Definition four_digits (y : Z) : bool :=
  (String.length (NilZero.string_of_uint (N.to_uint (Z.to_N y))) =? 4)%nat.

(** ** Loading and filtering the donations (lines 108-153, 494-522) *)

Module Loader.

(** The columns of the CSV file that [load_data] reads. *)
Record CsvRow : Type := mkCsvRow {
  csv_created_at : string;
  csv_city : string;
  csv_pints_donated : Q;
  csv_months_since_first_donation : Q
}.

(** A row of the frame [load_data] returns; [None] is NaT or NaN. *)
Record Donor : Type := mkDonor {
  created_at : option Timestamp;
  city : string;
  pints_donated : Q;
  months_since_first_donation : Q;
  months_active : Q;
  monthly_rate : Q;
  state_name : option string;
  lat : Q;
  lon : Q
}.

Definition city_to_state : list (string * string) :=
  [ ("Hobart", "Tasmania"); ("Darwin", "Northern Territory");
    ("Melbourne", "Victoria"); ("Canberra", "Australian Capital Territory");
    ("Perth", "Western Australia"); ("Adelaide", "South Australia");
    ("Sydney", "New South Wales"); ("Brisbane", "Queensland") ]%string.

Definition city_coords : list (string * (Q * Q)) :=
  [ ("Hobart"%string, (- (428821 # 10000), 1473272 # 10000));
    ("Darwin"%string, (- (124634 # 10000), 1308456 # 10000));
    ("Melbourne"%string, (- (378136 # 10000), 1449631 # 10000));
    ("Canberra"%string, (- (352809 # 10000), 1491300 # 10000));
    ("Perth"%string, (- (319505 # 10000), 1158605 # 10000));
    ("Adelaide"%string, (- (349285 # 10000), 1386007 # 10000));
    ("Sydney"%string, (- (338688 # 10000), 1512093 # 10000));
    ("Brisbane"%string, (- (274698 # 10000), 1530251 # 10000)) ]%Q.

(** [d.get(k)] on a dictionary written as its items. *)
Fixpoint dict_get {V : Type} (d : list (string * V)) (k : string) : option V :=
  match d with
  | [] => None
  | (k', v) :: rest => if String.eqb k k' then Some v else dict_get rest k
  end.

(** [.replace(0, 1)] on one value. *)
Definition replace_zero (x : Q) : Q := if Qeq_bool x 0 then 1%Q else x.

(** Lines 111-143 on one row: the derived columns, or [None] when the city
    has no coordinates and [dropna] removes the row. *)
Definition enrich {R : Runtime} (r : CsvRow) : option Donor :=
  let active := replace_zero (csv_months_since_first_donation r) in
  match dict_get city_coords (csv_city r) with
  | None => None
  | Some (la, lo) =>
      Some {| created_at := parse_datetime (csv_created_at r);
              city := csv_city r;
              pints_donated := csv_pints_donated r;
              months_since_first_donation := csv_months_since_first_donation r;
              months_active := active;
              monthly_rate := (csv_pints_donated r / active)%Q;
              state_name := dict_get city_to_state (csv_city r);
              lat := la;
              lon := lo |}
  end.

Fixpoint enrich_all {R : Runtime} (rows : list CsvRow) : list Donor :=
  match rows with
  | [] => []
  | r :: rest =>
      match enrich r with
      | Some d => d :: enrich_all rest
      | None => enrich_all rest
      end
  end.

(** Lines 146-148: after [np.random.seed(42)], one vector of draws moves the
    latitudes and the next one the longitudes. *)
Definition jitter {R : Runtime} (rows : list Donor) : list Donor :=
  let n := length rows in
  map (fun p =>
         let i := fst p in
         let d := snd p in
         {| created_at := created_at d;
            city := city d;
            pints_donated := pints_donated d;
            months_since_first_donation := months_since_first_donation d;
            months_active := months_active d;
            monthly_rate := monthly_rate d;
            state_name := state_name d;
            lat := (lat d + (0 + (5 # 1000) * draw i))%Q;
            lon := (lon d + (0 + (5 # 1000) * draw (n + i)))%Q |})
      (combine (seq 0 n) rows).

(** [load_data()]: [None] is a missing file, answered by an empty frame.
    The second component is the generator state the call leaves. *)
Definition load_data {R : Runtime} (file : option (list CsvRow)) (g : rng)
  : list Donor * rng :=
  match file with
  | None => ([], g)
  | Some rows =>
      let kept := enrich_all rows in
      (jitter kept, stream_state (2 * length kept))
  end.

(** Line 494: the states offered by the filter, each once, in order. *)
Definition all_states (df : list Donor) : list string :=
  group_keys (flat_map (fun d => match state_name d with
                                 | Some s => [s]
                                 | None => []
                                 end) df).

(** Lines 518-522: the rows of the selected states, or every row when
    nothing is selected. *)
Definition df_local (selected_states : list string) (df : list Donor) : list Donor :=
  match selected_states with
  | [] => df
  | _ =>
      filter (fun d => match state_name d with
                       | Some s => existsb (String.eqb s) selected_states
                       | None => false
                       end) df
  end.

End Loader.

(** * Properties *)

(** ** Comparison, clamping and truncation *)

Lemma lt_true_iff (a b : Q) : Py.lt a b = true <-> (a < b)%Q.
Proof.
  unfold Py.lt. rewrite negb_true_iff. split; intro H.
  - apply Qnot_le_lt. intro Hle. apply Qle_bool_iff in Hle. congruence.
  - destruct (Qle_bool b a) eqn:E; [|reflexivity].
    apply Qle_bool_iff in E. exfalso. exact (Qlt_not_le _ _ H E).
Qed.

Lemma lt_false_iff (a b : Q) : Py.lt a b = false <-> (b <= a)%Q.
Proof.
  unfold Py.lt. rewrite negb_false_iff. apply Qle_bool_iff.
Qed.

Lemma max_zero_nonneg (x : Q) : (0 <= Py.max x 0)%Q.
Proof.
  unfold Py.max. destruct (Py.lt x 0) eqn:E.
  - apply Qle_refl.
  - apply lt_false_iff in E. exact E.
Qed.

Lemma Qeq_bool_false_of_neq (x y : Q) : ~ (x == y)%Q -> Qeq_bool x y = false.
Proof.
  intro H. destruct (Qeq_bool x y) eqn:E; [|reflexivity].
  apply Qeq_bool_eq in E. contradiction.
Qed.

Lemma div_returns (x y : Q) : ~ (y == 0)%Q -> Py.div x y = Returned (x / y)%Q.
Proof.
  intro H. unfold Py.div. rewrite (Qeq_bool_false_of_neq _ _ H). reflexivity.
Qed.

(** [int] moves its argument toward zero by less than one. *)
Lemma int_nonneg (x : Q) :
  (0 <= x)%Q -> (inject_Z (Py.int x) <= x /\ x < inject_Z (Py.int x) + 1)%Q.
Proof.
  destruct x as [a b]. unfold Py.int, Qle, Qlt. simpl. intro H.
  assert (Ha : 0 <= a) by lia.
  pose proof (Z.quot_rem' a (Zpos b)) as E.
  pose proof (Z.rem_bound_pos a (Zpos b) Ha (Pos2Z.is_pos b)) as B.
  split; nia.
Qed.

Lemma int_nonpos (x : Q) :
  (x <= 0)%Q -> (inject_Z (Py.int x) - 1 < x /\ x <= inject_Z (Py.int x))%Q.
Proof.
  destruct x as [a b]. unfold Py.int, Qle, Qlt. simpl. intro H.
  assert (Ha : a <= 0) by lia.
  pose proof (Z.quot_rem' a (Zpos b)) as E.
  pose proof (Z.rem_bound_pos_neg a (Zpos b) (Pos2Z.is_pos b) Ha) as B.
  split; nia.
Qed.

Lemma int_of_nonneg (x : Q) : (0 <= x)%Q -> 0 <= Py.int x.
Proof.
  destruct x as [a b]. unfold Py.int, Qle. simpl. intro H.
  apply Z.quot_pos; lia.
Qed.

(** ** The division guards *)

Lemma days_of_supply_positive (final_inv : Z) (monthly_dem : Q) :
  (0 < monthly_dem)%Q ->
  days_of_supply final_inv monthly_dem
  = Returned (Fin (inject_Z final_inv / (monthly_dem / 30))%Q).
Proof.
  intro H. unfold days_of_supply.
  rewrite (proj2 (lt_true_iff _ _) H).
  rewrite (div_returns monthly_dem 30) by (intro E; discriminate E).
  cbn [Py.bind].
  rewrite div_returns; [reflexivity|].
  intro E. assert (H30 : (0 < monthly_dem / 30)%Q).
  { apply Qlt_shift_div_l; [reflexivity | lra]. }
  lra.
Qed.

Lemma coverage_ratio_positive (monthly_sup monthly_dem : Q) :
  (0 < monthly_dem)%Q ->
  coverage_ratio monthly_sup monthly_dem
  = Returned (monthly_sup / monthly_dem * 100)%Q.
Proof.
  intro H. unfold coverage_ratio.
  rewrite (proj2 (lt_true_iff _ _) H).
  rewrite div_returns; [reflexivity | lra].
Qed.

Lemma guards_nonpositive (final_inv : Z) (monthly_sup monthly_dem : Q) :
  (monthly_dem <= 0)%Q ->
  days_of_supply final_inv monthly_dem = Returned Inf
  /\ coverage_ratio monthly_sup monthly_dem = Returned 0%Q.
Proof.
  intro H. unfold days_of_supply, coverage_ratio.
  rewrite (proj2 (lt_false_iff _ _) H). split; reflexivity.
Qed.

Lemma coverage_never_raises (monthly_sup monthly_dem ratio : Q) :
  Py.raises (coverage monthly_sup monthly_dem ratio) = false.
Proof.
  unfold coverage.
  destruct (0 <? allocated monthly_dem ratio) eqn:E; [|reflexivity].
  apply Z.ltb_lt in E.
  rewrite div_returns; [reflexivity|].
  unfold Qeq. simpl. lia.
Qed.

(** C6.  The zero-demand guards: with a positive mean demand the days of
    supply are [final / (demand / 30)] and the coverage ratio is
    [supply / demand * 100]; with a zero mean demand they are infinity and 0;
    a blood type whose allotted demand is 0 has coverage 1; and none of the
    three computations raises, whatever the inputs. *)
Theorem division_guards (final_inv : Z) (monthly_sup monthly_dem ratio : Q) :
  ((0 < monthly_dem)%Q ->
     days_of_supply final_inv monthly_dem
     = Returned (Fin (inject_Z final_inv / (monthly_dem / 30))%Q)
     /\ coverage_ratio monthly_sup monthly_dem
        = Returned (monthly_sup / monthly_dem * 100)%Q)
  /\ ((monthly_dem == 0)%Q ->
        days_of_supply final_inv monthly_dem = Returned Inf
        /\ coverage_ratio monthly_sup monthly_dem = Returned 0%Q)
  /\ (allocated monthly_dem ratio = 0 ->
        coverage monthly_sup monthly_dem ratio = Returned 1%Q)
  /\ Py.raises (days_of_supply final_inv monthly_dem) = false
  /\ Py.raises (coverage_ratio monthly_sup monthly_dem) = false
  /\ Py.raises (coverage monthly_sup monthly_dem ratio) = false.
Proof.
  split; [|split; [|split; [|split; [|split]]]].
  - intro H. split.
    + apply days_of_supply_positive; assumption.
    + apply coverage_ratio_positive; assumption.
  - intro H. apply guards_nonpositive. lra.
  - intro H. unfold coverage. rewrite H. reflexivity.
  - destruct (Qlt_le_dec 0 monthly_dem) as [H|H].
    + rewrite days_of_supply_positive by assumption. reflexivity.
    + rewrite (proj1 (guards_nonpositive final_inv monthly_sup _ H)). reflexivity.
  - destruct (Qlt_le_dec 0 monthly_dem) as [H|H].
    + rewrite coverage_ratio_positive by assumption. reflexivity.
    + rewrite (proj2 (guards_nonpositive final_inv monthly_sup _ H)). reflexivity.
  - apply coverage_never_raises.
Qed.

Lemma division_guards_witness :
  days_of_supply 1150 950 = Returned (Fin (1150 / (950 / 30))%Q)
  /\ coverage_ratio 1000 950 = Returned (1000 / 950 * 100)%Q
  /\ coverage 1000 950 (1 # 2000) = Returned 1%Q.
Proof.
  destruct (division_guards 1150 1000 950 (1 # 2000)) as [Hpos [_ [Hcat _]]].
  destruct Hpos as [Hd Hc]; [reflexivity|].
  split; [exact Hd | split; [exact Hc | apply Hcat; reflexivity]].
Defined.

(** ** Monthly aggregation *)


Lemma zrange_S (lo : Z) (n : nat) : zrange lo (S n) = lo :: zrange (lo + 1) n.
Proof.
  unfold zrange. cbn [seq map]. f_equal; [simpl; lia|].
  rewrite <- seq_shift, map_map. apply map_ext. intro i.
  rewrite Nat2Z.inj_succ. lia.
Qed.

Lemma zrange_length (lo : Z) (n : nat) : length (zrange lo n) = n.
Proof. unfold zrange. rewrite length_map, length_seq. reflexivity. Qed.


Lemma fold_min_spec (d : Z) (rest : list (Timestamp * Q)) :
  let lo := fold_right (fun x acc => Z.min (month_ord (fst x)) acc) d rest in
  lo <= d
  /\ (forall x, In x rest -> lo <= month_ord (fst x))
  /\ (lo = d \/ exists x, In x rest /\ month_ord (fst x) = lo).
Proof.
  induction rest as [|x rest IH]; simpl.
  - split; [lia | split; [contradiction | left; reflexivity]].
  - destruct IH as [Hd [Hall Hex]].
    set (lo := fold_right _ d rest) in *.
    split; [lia | split].
    + intros y [<-|Hy]; [lia | specialize (Hall y Hy); lia].
    + destruct (Z.min_spec (month_ord (fst x)) lo) as [[_ E]|[_ E]]; rewrite E.
      * right. exists x. split; [left; reflexivity | reflexivity].
      * destruct Hex as [->|[y [Hy Ey]]]; [left; reflexivity|].
        right. exists y. split; [right; assumption | assumption].
Qed.

Lemma fold_max_spec (d : Z) (rest : list (Timestamp * Q)) :
  let hi := fold_right (fun x acc => Z.max (month_ord (fst x)) acc) d rest in
  d <= hi
  /\ (forall x, In x rest -> month_ord (fst x) <= hi)
  /\ (hi = d \/ exists x, In x rest /\ month_ord (fst x) = hi).
Proof.
  induction rest as [|x rest IH]; simpl.
  - split; [lia | split; [contradiction | left; reflexivity]].
  - destruct IH as [Hd [Hall Hex]].
    set (hi := fold_right _ d rest) in *.
    split; [lia | split].
    + intros y [<-|Hy]; [lia | specialize (Hall y Hy); lia].
    + destruct (Z.max_spec (month_ord (fst x)) hi) as [[_ E]|[_ E]]; rewrite E.
      * destruct Hex as [->|[y [Hy Ey]]]; [left; reflexivity|].
        right. exists y. split; [right; assumption | assumption].
      * right. exists x. split; [left; reflexivity | reflexivity].
Qed.



Lemma Qsum_map_ext {A : Type} (f g : A -> Q) (l : list A) :
  (forall a, In a l -> (f a == g a)%Q) -> (Qsum (map f l) == Qsum (map g l))%Q.
Proof.
  induction l as [|a l IH]; simpl; intro H; [reflexivity|].
  rewrite (H a (or_introl eq_refl)), IH; [reflexivity|].
  intros b Hb. apply H. right. assumption.
Qed.

Lemma Qsum_map_plus {A : Type} (f g : A -> Q) (l : list A) :
  (Qsum (map (fun a => f a + g a) l) == Qsum (map f l) + Qsum (map g l))%Q.
Proof.
  induction l as [|a l IH]; simpl; [reflexivity|].
  rewrite IH. ring.
Qed.








(** ** The projection loop *)

Section Loop.

Context {R : Runtime}.
Variables (S0 slope volatility : Q).

(** The two draws of an iteration that starts in generator state [g]. *)
Let bounce (g : rng) : Q := fst (np_random_normal 0 (volatility * (3 # 10)) g).
Let after_bounce (g : rng) : rng := snd (np_random_normal 0 (volatility * (3 # 10)) g).
Let noise (g : rng) : Q :=
  fst (np_random_normal 0 (volatility * (15 # 100)) (after_bounce g)).
Let after_noise (g : rng) : rng :=
  snd (np_random_normal 0 (volatility * (15 # 100)) (after_bounce g)).

Lemma forecast_step_eq (shock boost waste : Q) (d : Timestamp) (m : Z)
    (inv : Q) (g : rng) :
  forecast_step S0 slope volatility shock boost waste d m inv g
  = (let base := Py.max (S0 + slope * inject_Z m + bounce g) 0 in
     let supply := (base * (1 + boost / 100) * (1 - waste / 100))%Q in
     let level := (base * demand_ratio + noise g)%Q in
     {| next_date := add_months d m;
        base_supply := base;
        sim_supply := supply;
        demand_level := level;
        sim_demand := (level * (1 + shock / 100))%Q;
        current_inventory := (inv + (supply - level * (1 + shock / 100)))%Q |},
     after_noise g).
Proof.
  unfold forecast_step, bounce, noise, after_noise, after_bounce.
  destruct (np_random_normal 0 (volatility * (3 # 10)) g) as [z1 g1].
  cbn [fst snd].
  destruct (np_random_normal 0 (volatility * (15 # 100)) g1) as [z2 g2].
  reflexivity.
Qed.

Lemma forecast_loop_cons (shock boost waste : Q) (d : Timestamp) (m : Z)
    (ms : list Z) (inv : Q) (g : rng) :
  forecast_loop S0 slope volatility shock boost waste d (m :: ms) inv g
  = (let s := fst (forecast_step S0 slope volatility shock boost waste d m inv g) in
     let rest := forecast_loop S0 slope volatility shock boost waste d ms
                   (current_inventory s) (after_noise g) in
     (s :: fst rest, snd rest)).
Proof.
  cbn [forecast_loop]. rewrite forecast_step_eq. cbn [fst snd].
  destruct (forecast_loop _ _ _ _ _ _ _ ms _ _). reflexivity.
Qed.

Lemma forecast_loop_length (shock boost waste : Q) (d : Timestamp)
    (ms : list Z) (inv : Q) (g : rng) :
  length (fst (forecast_loop S0 slope volatility shock boost waste d ms inv g))
  = length ms.
Proof.
  revert inv g. induction ms as [|m ms IH]; intros inv g; [reflexivity|].
  rewrite forecast_loop_cons. cbn [fst length]. rewrite IH. reflexivity.
Qed.

(** Every step obeys the loop body's equations. *)
Lemma forecast_loop_steps (shock boost waste : Q) (d : Timestamp)
    (ms : list Z) (inv : Q) (g : rng) :
  Forall (fun s =>
            (0 <= base_supply s)%Q
            /\ sim_supply s = (base_supply s * (1 + boost / 100) * (1 - waste / 100))%Q
            /\ sim_demand s = (demand_level s * (1 + shock / 100))%Q)
         (fst (forecast_loop S0 slope volatility shock boost waste d ms inv g)).
Proof.
  revert inv g. induction ms as [|m ms IH]; intros inv g; [constructor|].
  rewrite forecast_loop_cons. cbn [fst]. constructor; [|apply IH].
  rewrite forecast_step_eq. cbn.
  split; [apply max_zero_nonneg | split; reflexivity].
Qed.

(** The balance is carried from step to step without loss. *)
Lemma forecast_loop_balance (shock boost waste : Q) (d : Timestamp)
    (ms : list Z) (inv : Q) (g : rng) (i : nat) (s : Step) :
  let steps := fst (forecast_loop S0 slope volatility shock boost waste d ms inv g) in
  nth_error steps i = Some s ->
  current_inventory s
  = (balance_before inv steps i + (sim_supply s - sim_demand s))%Q.
Proof.
  revert inv g i. induction ms as [|m ms IH]; intros inv g i; cbn zeta.
  - destruct i; discriminate.
  - rewrite forecast_loop_cons. cbn [fst].
    set (s0 := fst (forecast_step _ _ _ _ _ _ _ m inv g)).
    destruct i as [|j]; cbn [nth_error balance_before].
    + intro E. injection E as <-. subst s0. rewrite forecast_step_eq. reflexivity.
    + intro E. rewrite (IH _ _ _ E). f_equal.
      destruct j as [|k]; cbn [nth_error balance_before]; [reflexivity|].
      set (rest := fst (forecast_loop _ _ _ _ _ _ _ ms _ _)) in *.
      destruct (nth_error rest k) eqn:Ek; [reflexivity|].
      apply nth_error_None in Ek.
      assert (Hlt : (S k < length rest)%nat)
        by (apply nth_error_Some; rewrite E; discriminate).
      lia.
Qed.

(** The clamped base supply and the demand level before the shock depend on
    the history and on the draws only: the sliders, the starting balance and
    the anchor date do not move them, nor the generator state left behind. *)
Lemma forecast_loop_draws (shock boost waste shock' boost' waste' : Q)
    (d d' : Timestamp) (ms : list Z) (inv inv' : Q) (g : rng) :
  let run := forecast_loop S0 slope volatility shock boost waste d ms inv g in
  let run' := forecast_loop S0 slope volatility shock' boost' waste' d' ms inv' g in
  map base_supply (fst run) = map base_supply (fst run')
  /\ map demand_level (fst run) = map demand_level (fst run')
  /\ snd run = snd run'.
Proof.
  revert inv inv' g. induction ms as [|m ms IH]; intros inv inv' g; cbn zeta.
  - repeat split.
  - rewrite !forecast_loop_cons. cbn [fst snd map].
    match goal with
    | |- context [forecast_loop _ _ _ shock boost waste d ms ?a ?h] =>
        match goal with
        | |- context [forecast_loop _ _ _ shock' boost' waste' d' ms ?b h] =>
            destruct (IH a b h) as [H1 [H2 H3]]
        end
    end.
    rewrite H1, H2, H3. rewrite !forecast_step_eq. cbn. repeat split.
Qed.

(** The anchor date only labels the steps. *)
Lemma forecast_loop_dates (shock boost waste : Q) (d d' : Timestamp)
    (ms : list Z) (inv : Q) (g : rng) :
  let run := forecast_loop S0 slope volatility shock boost waste d ms inv g in
  let run' := forecast_loop S0 slope volatility shock boost waste d' ms inv g in
  map (fun s => numbers (emit s)) (fst run) = map (fun s => numbers (emit s)) (fst run')
  /\ ((forall m, In m ms ->
         strftime_bY (add_months d m) = strftime_bY (add_months d' m)) ->
      map emit (fst run) = map emit (fst run')).
Proof.
  revert inv g. induction ms as [|m ms IH]; intros inv g; cbn zeta.
  - split; reflexivity.
  - rewrite !forecast_loop_cons. cbn [fst snd map].
    rewrite !forecast_step_eq. cbn [fst current_inventory].
    match goal with
    | |- context [forecast_loop _ _ _ shock boost waste d ms ?a ?h] =>
        destruct (IH a h) as [H1 H2]
    end.
    split.
    + rewrite H1. reflexivity.
    + intro Hm. rewrite H2 by (intros k Hk; apply Hm; right; assumption).
      f_equal. unfold emit. cbn. rewrite (Hm m (or_introl eq_refl)). reflexivity.
Qed.

End Loop.

(** ** The whole call *)

Lemma py_range_length (m : Z) : length (py_range 1 (m + 1)) = Z.to_nat m.
Proof.
  unfold py_range. rewrite zrange_length. f_equal. lia.
Qed.

Lemma projection_eq {R : Runtime} (now : Timestamp) (history : list MonthlyPoint)
    (months : Z) (shock boost waste : Q) :
  projection now history months shock boost waste
  = forecast_loop (last_actual_supply_of history)
      (fst (detect_trend history)) (snd (detect_trend history))
      shock boost waste (current_date_of now history)
      (py_range 1 (months + 1)) (last_actual_supply_of history)
      (np_random_seed 42).
Proof.
  unfold projection. destruct (detect_trend history). reflexivity.
Qed.

Lemma projection_length {R : Runtime} (now : Timestamp) (history : list MonthlyPoint)
    (months : Z) (shock boost waste : Q) :
  length (fst (projection now history months shock boost waste)) = Z.to_nat months.
Proof.
  rewrite projection_eq, forecast_loop_length. apply py_range_length.
Qed.

Lemma run_simulation_returned {R : Runtime} (now : Timestamp) (g : rng)
    (df df' : DataFrame) (history : list MonthlyPoint)
    (months : Z) (shock boost waste : Q) :
  prepare_history df = Returned (df', history) ->
  run_simulation now g df months shock boost waste
  = (let run := projection now history months shock boost waste in
     let forecast_df := map emit (fst run) in
     (Returned (forecast_df,
                column_mean (map MonthlySupply forecast_df),
                column_mean (map MonthlyDemand forecast_df)),
      (snd run, df'))).
Proof.
  intro E. unfold run_simulation. rewrite E.
  destruct (projection now history months shock boost waste). reflexivity.
Qed.

Lemma run_simulation_raised {R : Runtime} (now : Timestamp) (g : rng)
    (df : DataFrame) (e : exn) (months : Z) (shock boost waste : Q) :
  prepare_history df = Raised e ->
  run_simulation now g df months shock boost waste = (Raised e, (g, df)).
Proof.
  intro E. unfold run_simulation. rewrite E. reflexivity.
Qed.

Lemma pd_to_datetime_length {R : Runtime} (col : list cell) (ts : list Timestamp) :
  pd_to_datetime col = Returned ts -> length ts = length col.
Proof.
  revert ts. induction col as [|c col IH]; intros ts; cbn [pd_to_datetime].
  - intro E. injection E as <-. reflexivity.
  - destruct (to_datetime_cell c); [|discriminate]. cbn [Py.bind].
    destruct (pd_to_datetime col); [|discriminate]. cbn [Py.bind].
    intro E. injection E as <-. cbn [length]. f_equal. apply IH. reflexivity.
Qed.


Lemma assign_created_at_spec (df : DataFrame) (ts : list Timestamp) :
  length ts = length df ->
  map pints_donated (assign_created_at df ts) = map pints_donated df
  /\ map created_at (assign_created_at df ts) = map Stamp ts.
Proof.
  revert ts. induction df as [|r df IH]; intros [|t ts] H; try discriminate.
  - split; reflexivity.
  - cbn. destruct (IH ts) as [H1 H2]; [cbn in H; lia|].
    rewrite H1, H2. split; reflexivity.
Qed.

Lemma resample_nonempty (recs : list (Timestamp * Q)) :
  recs <> [] -> resample_MS_sum recs <> [].
Proof.
  intros Hne E. destruct recs as [|r rest]; [congruence|].
  apply (f_equal (@length _)) in E. unfold resample_MS_sum in E.
  rewrite length_map, zrange_length in E. cbn [length] in E.
  pose proof (fold_min_spec (month_ord (fst r)) rest) as [Hlo _].
  pose proof (fold_max_spec (month_ord (fst r)) rest) as [Hhi _].
  lia.
Qed.

Lemma prepare_history_nonempty {R : Runtime} (df df' : DataFrame)
    (history : list MonthlyPoint) :
  prepare_history df = Returned (df', history) -> df <> [] -> history <> [].
Proof.
  unfold prepare_history. intros E Hne.
  destruct (pd_to_datetime (map created_at df)) as [ts|] eqn:Ets; [|discriminate].
  cbn [Py.bind] in E. injection E as _ <-.
  apply resample_nonempty.
  apply pd_to_datetime_length in Ets. rewrite length_map in Ets.
  destruct df as [|r df]; [congruence|]. destruct ts as [|t ts]; [discriminate|].
  discriminate.
Qed.

Lemma pd_to_datetime_of_stamps {R : Runtime} (ts : list Timestamp) :
  pd_to_datetime (map Stamp ts) = Returned ts.
Proof.
  induction ts as [|t ts IH]; [reflexivity|].
  cbn [map pd_to_datetime to_datetime_cell Py.bind]. rewrite IH. reflexivity.
Qed.

Lemma assign_created_at_fixed (df : DataFrame) (ts : list Timestamp) :
  map created_at df = map Stamp ts -> assign_created_at df ts = df.
Proof.
  revert ts. induction df as [|[c q] df IH]; intros [|t ts] H; try discriminate.
  - reflexivity.
  - cbn in H. injection H as -> H. cbn. rewrite (IH ts H). reflexivity.
Qed.

(** Converting a converted frame changes nothing. *)
Lemma prepare_history_idempotent {R : Runtime} (df df' : DataFrame)
    (history : list MonthlyPoint) :
  prepare_history df = Returned (df', history) ->
  prepare_history df' = Returned (df', history).
Proof.
  unfold prepare_history. intro E.
  destruct (pd_to_datetime (map created_at df)) as [ts|] eqn:Ets; [|discriminate].
  cbn [Py.bind] in E. injection E as <- <-.
  pose proof (pd_to_datetime_length _ _ Ets) as Hlen. rewrite length_map in Hlen.
  destruct (assign_created_at_spec df ts Hlen) as [Hp Hc].
  rewrite Hc, pd_to_datetime_of_stamps. cbn [Py.bind].
  rewrite Hp, (assign_created_at_fixed _ ts Hc). reflexivity.
Qed.

(** ** Reproducibility *)

Lemma label_of_add_months (d d' : Timestamp) (m : Z) :
  month_ord d = month_ord d' ->
  strftime_bY (add_months d m) = strftime_bY (add_months d' m).
Proof.
  intro H. unfold strftime_bY, add_months. cbn [year month]. rewrite H. reflexivity.
Qed.

Lemma current_date_of_nonempty (now now' : Timestamp) (history : list MonthlyPoint) :
  history <> [] -> current_date_of now history = current_date_of now' history.
Proof.
  intro H. unfold current_date_of.
  destruct (rev history) eqn:E; [|reflexivity].
  apply (f_equal (@rev _)) in E. rewrite rev_involutive in E. contradiction.
Qed.

Lemma column_of_numbers (steps : list Step) :
  map MonthlySupply (map emit steps)
  = map (fun t => snd (fst t)) (map (fun s => numbers (emit s)) steps)
  /\ map MonthlyDemand (map emit steps)
     = map snd (map (fun s => numbers (emit s)) steps).
Proof.
  rewrite !map_map. split; apply map_ext; reflexivity.
Qed.

(** The generator state before the call never reaches the result, and the
    clock reaches nothing but the labels. *)
Lemma projection_clock {R : Runtime} (now now' : Timestamp)
    (history : list MonthlyPoint) (months : Z) (shock boost waste : Q) :
  let run := projection now history months shock boost waste in
  let run' := projection now' history months shock boost waste in
  map (fun s => numbers (emit s)) (fst run) = map (fun s => numbers (emit s)) (fst run')
  /\ (history <> [] \/ month_ord now = month_ord now' ->
      map emit (fst run) = map emit (fst run')).
Proof.
  cbn zeta. rewrite !projection_eq.
  pose proof (forecast_loop_dates (last_actual_supply_of history)
                (fst (detect_trend history)) (snd (detect_trend history))
                shock boost waste
                (current_date_of now history) (current_date_of now' history)
                (py_range 1 (months + 1)) (last_actual_supply_of history)
                (np_random_seed 42)) as [H1 H2].
  split; [exact H1|].
  intros Hcase. apply H2. intros m _.
  destruct Hcase as [Hne|Hclock].
  - rewrite (current_date_of_nonempty now now' history Hne). reflexivity.
  - apply label_of_add_months. unfold current_date_of.
    destruct (rev history); [exact Hclock | reflexivity].
Qed.

(** A second call on the frame and the generator the first call left
    returns what a call on the original frame returns. *)
Lemma rerun_on_left_frame {R : Runtime} (now now' : Timestamp) (g g' : rng)
    (df : DataFrame) (months : Z) (shock boost waste : Q) :
  let first := run_simulation now g df months shock boost waste in
  fst (run_simulation now' (fst (snd first)) (snd (snd first))
         months shock boost waste)
  = fst (run_simulation now' g' df months shock boost waste).
Proof.
  cbn zeta.
  destruct (prepare_history df) as [[df' history]|e] eqn:E.
  - rewrite (run_simulation_returned now g df df' history _ _ _ _ E).
    cbn [fst snd].
    rewrite (run_simulation_returned now' _ df' df' history _ _ _ _
               (prepare_history_idempotent df df' history E)).
    rewrite (run_simulation_returned now' g' df df' history _ _ _ _ E).
    reflexivity.
  - rewrite (run_simulation_raised now g df e _ _ _ _ E). cbn [fst snd].
    rewrite !(run_simulation_raised now' _ df e _ _ _ _ E). reflexivity.
Qed.

(** C1, as the code has it.  Two invocations on the same records with the
    same four parameters return the same numbers (inventory, monthly supply,
    monthly demand at every index, both means), whatever the state of the
    process-wide generator before each of them and whatever the clock.  They
    return the same period labels too when the records are not empty, or when
    both invocations read the clock in the same calendar month.  A second
    invocation on the frame and the generator the first one left behind
    returns what it returns on the original frame. *)
Theorem reproducible_runs {R : Runtime} (now now' : Timestamp) (g g' : rng)
    (df : DataFrame) (months : Z) (shock boost waste : Q) :
  (df <> [] \/ month_ord now = month_ord now' ->
   fst (run_simulation now g df months shock boost waste)
   = fst (run_simulation now' g' df months shock boost waste))
  /\ unlabelled (fst (run_simulation now g df months shock boost waste))
     = unlabelled (fst (run_simulation now' g' df months shock boost waste))
  /\ (let first := run_simulation now g df months shock boost waste in
      fst (run_simulation now' (fst (snd first)) (snd (snd first))
             months shock boost waste)
      = fst (run_simulation now' g' df months shock boost waste)).
Proof.
  rewrite <- and_assoc. split; [|apply rerun_on_left_frame].
  destruct (prepare_history df) as [[df' history]|e] eqn:E.
  - rewrite (run_simulation_returned now g df df' history _ _ _ _ E).
    rewrite (run_simulation_returned now' g' df df' history _ _ _ _ E).
    cbn zeta. cbn [fst unlabelled].
    destruct (projection_clock now now' history months shock boost waste)
      as [Hnum Hlab].
    split.
    + intro Hcase. rewrite Hlab; [reflexivity|].
      destruct Hcase as [Hne|Hclock]; [left | right; exact Hclock].
      exact (prepare_history_nonempty df df' history E Hne).
    + destruct (column_of_numbers (fst (projection now history months shock boost waste)))
        as [Hs Hd].
      destruct (column_of_numbers (fst (projection now' history months shock boost waste)))
        as [Hs' Hd'].
      rewrite Hs, Hd, Hs', Hd', !(map_map emit numbers).
      cbn zeta in Hnum. rewrite Hnum. reflexivity.
  - rewrite !(run_simulation_raised _ _ df e _ _ _ _ E). split; reflexivity.
Qed.

Lemma reproducible_runs_witness :
  fst (run_simulation (R := Sample.quiet)
         {| year := 2024; month := 5; day := 17 |} 7%nat
         [ {| created_at := Raw "2024-01-15"; pints_donated := 1001 |} ] 2 0 0 5)
  = fst (run_simulation (R := Sample.quiet)
           {| year := 2025; month := 11; day := 2 |} 31%nat
           [ {| created_at := Raw "2024-01-15"; pints_donated := 1001 |} ] 2 0 0 5).
Proof.
  refine (proj1 (reproducible_runs (R := Sample.quiet) _ _ _ _ _ _ _ _ _) _).
  left. discriminate.
Defined.

(** C1 as stated fails on an empty collection: the labels follow the clock
    (line 190), so a run in January and a run in February differ. *)
Lemma reproducible_runs_counterexample :
  fst (run_simulation (R := Sample.quiet)
         {| year := 2024; month := 1; day := 15 |} 0%nat [] 1 0 0 0)
  = Returned ([ {| Date := "Feb 2024"; Inventory := 1050;
                   MonthlySupply := 1000; MonthlyDemand := 950 |} ],
              1000%Q, 950%Q)
  /\ fst (run_simulation (R := Sample.quiet)
            {| year := 2024; month := 2; day := 15 |} 0%nat [] 1 0 0 0)
     = Returned ([ {| Date := "Mar 2024"; Inventory := 1050;
                      MonthlySupply := 1000; MonthlyDemand := 950 |} ],
                 1000%Q, 950%Q)
  /\ fst (run_simulation (R := Sample.quiet)
            {| year := 2024; month := 1; day := 15 |} 0%nat [] 1 0 0 0)
     <> fst (run_simulation (R := Sample.quiet)
               {| year := 2024; month := 2; day := 15 |} 0%nat [] 1 0 0 0).
Proof.
  split; [vm_compute; reflexivity | split; [vm_compute; reflexivity|]].
  vm_compute. discriminate.
Qed.

(** ** The balance equation *)

Ltac int_cases x :=
  let H := fresh "Hsign" in
  destruct (Qlt_le_dec x 0) as [H|H];
  [ pose proof (int_nonpos x (Qlt_le_weak _ _ H)) | pose proof (int_nonneg x H) ].

(** Truncating the four terms of the balance equation separately moves it by
    at most two units. *)
Lemma int_balance_drift (xp s d : Q) :
  Z.abs (Py.int (xp + (s - d)) - (Py.int xp + Py.int s - Py.int d)) <= 2.
Proof.
  assert (HQ : (inject_Z (-3) < inject_Z (Py.int (xp + (s - d))
                                 - (Py.int xp + Py.int s - Py.int d))
                < inject_Z 3)%Q).
  { unfold Z.sub. rewrite !inject_Z_plus, !inject_Z_opp, !inject_Z_plus, !inject_Z_opp.
    change (inject_Z 3) with 3%Q. change (inject_Z (-3)) with (-3)%Q.
    int_cases (xp + (s - d))%Q; int_cases xp; int_cases s; int_cases d; lra. }
  destruct HQ as [H1 H2]. rewrite <- Zlt_Qlt in H1, H2. lia.
Qed.

Lemma int_balance_drift_start (x0 s d : Q) :
  (Qabs (inject_Z (Py.int (x0 + (s - d)))
         - (x0 + inject_Z (Py.int s) - inject_Z (Py.int d))) < 3)%Q.
Proof.
  apply Qabs_Qlt_condition.
  int_cases (x0 + (s - d))%Q; int_cases s; int_cases d; lra.
Qed.

(** C2, as the code has it.  The running balance the loop carries obeys the
    balance equation exactly at every step (the first step starts from the
    last historical total, 1000 for an empty history).  The emitted integers
    are truncations of the balance, the supply and the demand, each taken
    separately: at every index past the first they obey the equation up to 2
    units, and at the first index up to less than 3. *)
Theorem balance_of_forecast {R : Runtime} (now : Timestamp) (g : rng)
    (df df' : DataFrame) (history : list MonthlyPoint)
    (months : Z) (shock boost waste : Q) :
  prepare_history df = Returned (df', history) ->
  exists steps : list Step,
    fst (run_simulation now g df months shock boost waste)
    = Returned (map emit steps,
                column_mean (map MonthlySupply (map emit steps)),
                column_mean (map MonthlyDemand (map emit steps)))
    /\ length steps = Z.to_nat months
    /\ (forall i s, nth_error steps i = Some s ->
          current_inventory s
          = (balance_before (last_actual_supply_of history) steps i
             + (sim_supply s - sim_demand s))%Q)
    /\ (forall s, nth_error steps 0 = Some s ->
          (Qabs (inject_Z (Inventory (emit s))
                 - (last_actual_supply_of history
                    + inject_Z (MonthlySupply (emit s))
                    - inject_Z (MonthlyDemand (emit s)))) < 3)%Q)
    /\ (forall j s' s,
          nth_error steps j = Some s' -> nth_error steps (S j) = Some s ->
          Z.abs (Inventory (emit s)
                 - (Inventory (emit s') + MonthlySupply (emit s)
                    - MonthlyDemand (emit s))) <= 2).
Proof.
  intro E.
  exists (fst (projection now history months shock boost waste)).
  rewrite (run_simulation_returned now g df df' history _ _ _ _ E).
  split; [reflexivity|]. split; [apply projection_length|].
  rewrite projection_eq.
  set (S0 := last_actual_supply_of history).
  set (steps := fst (forecast_loop _ _ _ _ _ _ _ _ _ _)).
  assert (Hbal : forall i s, nth_error steps i = Some s ->
            current_inventory s
            = (balance_before S0 steps i + (sim_supply s - sim_demand s))%Q).
  { intros i s Hs. exact (forecast_loop_balance _ _ _ _ _ _ _ _ _ _ i s Hs). }
  split; [exact Hbal | split].
  - intros s Hs. unfold emit. cbn [Inventory MonthlySupply MonthlyDemand].
    rewrite (Hbal 0%nat s Hs). cbn [balance_before].
    apply int_balance_drift_start.
  - intros j s' s Hs' Hs. unfold emit. cbn [Inventory MonthlySupply MonthlyDemand].
    rewrite (Hbal (S j) s Hs). cbn [balance_before]. rewrite Hs'.
    apply int_balance_drift.
Qed.

Lemma balance_of_forecast_witness :
  exists steps : list Step,
    fst (run_simulation (R := Sample.quiet)
           {| year := 2024; month := 5; day := 17 |} 7%nat
           [ {| created_at := Raw "2024-01-15"; pints_donated := 1001 |} ] 2 0 0 0)
    = Returned (map emit steps,
                column_mean (map MonthlySupply (map emit steps)),
                column_mean (map MonthlyDemand (map emit steps)))
    /\ length steps = 2%nat.
Proof.
  destruct (balance_of_forecast (R := Sample.quiet)
              {| year := 2024; month := 5; day := 17 |} 7%nat
              [ {| created_at := Raw "2024-01-15"; pints_donated := 1001 |} ]
              [ {| created_at := Stamp {| year := 2024; month := 1; day := 15 |};
                   pints_donated := 1001 |} ]
              [ {| hist_created_at := {| year := 2024; month := 1; day := 1 |};
                   hist_pints_donated := 1001 |} ]
              2 0 0 0 eq_refl) as [steps [H1 [H2 _]]].
  exists steps. split; [exact H1 | exact H2].
Defined.

(** C2 as stated fails: one month of 1001 pints, no noise, all sliders at 0.
    Supply is 1001 and demand 950.95 at each step, so the balance runs
    1051.05, 1101.10 and is emitted as 1051, 1101, while the emitted supply
    and demand are 1001 and 950. *)
Lemma balance_of_forecast_counterexample :
  fst (run_simulation (R := Sample.quiet)
         {| year := 2024; month := 5; day := 17 |} 7%nat
         [ {| created_at := Raw "2024-01-15"; pints_donated := 1001 |} ] 2 0 0 0)
  = Returned ([ {| Date := "Feb 2024"; Inventory := 1051;
                   MonthlySupply := 1001; MonthlyDemand := 950 |};
                {| Date := "Mar 2024"; Inventory := 1101;
                   MonthlySupply := 1001; MonthlyDemand := 950 |} ],
              2002 # 2, 1900 # 2)
  /\ 1051 <> 1001 + 1001 - 950
  /\ 1101 <> 1051 + 1001 - 950.
Proof.
  split; [vm_compute; reflexivity | split; discriminate].
Qed.

(** ** Response to the sliders *)

Lemma nth_error_map_eq {A B : Type} (f : A -> B) (l l' : list A) (i : nat) (a a' : A) :
  map f l = map f l' ->
  nth_error l i = Some a -> nth_error l' i = Some a' -> f a = f a'.
Proof.
  intros E H H'.
  apply (map_nth_error f) in H. apply (map_nth_error f) in H'.
  rewrite E in H. congruence.
Qed.

Lemma pct_lt (u u' : Q) : (u < u' -> u / 100 < u' / 100)%Q.
Proof.
  intro H. unfold Qdiv. apply Qmult_lt_compat_r; [reflexivity | exact H].
Qed.

Lemma pct_le (u u' : Q) : (u <= u' -> u / 100 <= u' / 100)%Q.
Proof.
  intro H. unfold Qdiv. apply Qmult_le_compat_r; [exact H | discriminate].
Qed.

Lemma pct_100 : (100 / 100 == 1)%Q.
Proof. reflexivity. Qed.

Lemma pct_neg_100 : (-100 / 100 == -1)%Q.
Proof. reflexivity. Qed.

Lemma scale_lt (b u u' v : Q) :
  (0 < b -> 0 < v -> u < u' -> b * (1 + u / 100) * v < b * (1 + u' / 100) * v)%Q.
Proof.
  intros Hb Hv Hu.
  apply Qmult_lt_compat_r; [exact Hv|].
  apply Qmult_lt_l; [exact Hb|].
  pose proof (pct_lt u u' Hu). lra.
Qed.

(** C3, as the code has it.  Two runs on the same history and horizon draw
    the same noise, so at every step they share the clamped base supply and
    the demand level before the shock.  At a step whose base supply is
    positive, a larger boost gives a strictly larger simulated supply when
    wastage is below 100, and a larger wastage gives a strictly smaller one
    when the boost is above -100.  At a step whose demand level is positive,
    a larger shock gives a strictly larger simulated demand.  At a step whose
    base supply was clamped to zero the simulated supply is zero whatever the
    sliders say. *)
Theorem policy_response {R : Runtime} (now : Timestamp)
    (history : list MonthlyPoint) (months : Z)
    (shock boost waste shock' boost' waste' : Q) (i : nat) (s s' : Step) :
  nth_error (fst (projection now history months shock boost waste)) i = Some s ->
  nth_error (fst (projection now history months shock' boost' waste')) i = Some s' ->
  base_supply s' = base_supply s
  /\ demand_level s' = demand_level s
  /\ ((boost < boost')%Q -> (waste' == waste)%Q -> (waste < 100)%Q ->
      (0 < base_supply s)%Q -> (sim_supply s < sim_supply s')%Q)
  /\ ((shock < shock')%Q -> (0 < demand_level s)%Q ->
      (sim_demand s < sim_demand s')%Q)
  /\ ((waste < waste')%Q -> (boost' == boost)%Q -> (-100 < boost)%Q ->
      (0 < base_supply s)%Q -> (sim_supply s' < sim_supply s)%Q)
  /\ ((base_supply s == 0)%Q -> (sim_supply s == 0 /\ sim_supply s' == 0)%Q).
Proof.
  rewrite !projection_eq. intros Hs Hs'.
  set (S0 := last_actual_supply_of history) in *.
  set (sl := fst (detect_trend history)) in *.
  set (vol := snd (detect_trend history)) in *.
  set (d := current_date_of now history) in *.
  set (ms := py_range 1 (months + 1)) in *.
  destruct (forecast_loop_draws S0 sl vol shock boost waste shock' boost' waste'
              d d ms S0 S0 (np_random_seed 42)) as [Hb [Hl _]].
  pose proof (nth_error_map_eq base_supply _ _ i s s' Hb Hs Hs') as Eb.
  pose proof (nth_error_map_eq demand_level _ _ i s s' Hl Hs Hs') as El.
  pose proof (forecast_loop_steps S0 sl vol shock boost waste d ms S0
                (np_random_seed 42)) as F.
  pose proof (forecast_loop_steps S0 sl vol shock' boost' waste' d ms S0
                (np_random_seed 42)) as F'.
  rewrite Forall_forall in F, F'.
  destruct (F s (nth_error_In _ _ Hs)) as [_ [Esup Edem]].
  destruct (F' s' (nth_error_In _ _ Hs')) as [_ [Esup' Edem']].
  rewrite Esup, Esup', Edem, Edem', <- Eb, <- El.
  split; [reflexivity | split; [reflexivity|]].
  split; [|split; [|split]].
  - intros Hlt Hw Hw100 Hpos. rewrite Hw.
    apply scale_lt; [exact Hpos | | exact Hlt].
    pose proof (pct_lt waste 100 Hw100) as P. rewrite pct_100 in P. lra.
  - intros Hlt Hpos. apply Qmult_lt_l; [exact Hpos|].
    pose proof (pct_lt shock shock' Hlt). lra.
  - intros Hlt Hbo Hb100 Hpos. rewrite Hbo.
    apply Qmult_lt_l.
    + apply Qmult_lt_0_compat; [exact Hpos|].
      pose proof (pct_lt (-100) boost Hb100) as P. rewrite pct_neg_100 in P. lra.
    + pose proof (pct_lt waste waste' Hlt). lra.
  - intro Hz. rewrite Hz. split; ring.
Qed.

Lemma policy_response_witness :
  exists s s',
    nth_error (fst (projection (R := Sample.quiet)
                      {| year := 2024; month := 5; day := 17 |}
                      [ {| hist_created_at := {| year := 2024; month := 1; day := 1 |};
                           hist_pints_donated := 1001 |} ] 2 0 0 5)) 0 = Some s
    /\ nth_error (fst (projection (R := Sample.quiet)
                         {| year := 2024; month := 5; day := 17 |}
                         [ {| hist_created_at := {| year := 2024; month := 1; day := 1 |};
                              hist_pints_donated := 1001 |} ] 2 0 10 5)) 0 = Some s'
    /\ (0 < base_supply s)%Q
    /\ (sim_supply s < sim_supply s')%Q.
Proof.
  destruct (nth_error (fst (projection (R := Sample.quiet)
                      {| year := 2024; month := 5; day := 17 |}
                      [ {| hist_created_at := {| year := 2024; month := 1; day := 1 |};
                           hist_pints_donated := 1001 |} ] 2 0 0 5)) 0)
    as [s|] eqn:Hs; [|vm_compute in Hs; discriminate].
  destruct (nth_error (fst (projection (R := Sample.quiet)
                      {| year := 2024; month := 5; day := 17 |}
                      [ {| hist_created_at := {| year := 2024; month := 1; day := 1 |};
                           hist_pints_donated := 1001 |} ] 2 0 10 5)) 0)
    as [s'|] eqn:Hs'; [|vm_compute in Hs'; discriminate].
  exists s, s'. split; [reflexivity | split; [reflexivity|]].
  assert (Hpos : (0 < base_supply s)%Q).
  { vm_compute in Hs. injection Hs as <-. reflexivity. }
  split; [exact Hpos|].
  refine (proj1 (proj2 (proj2 (policy_response (R := Sample.quiet) _ _ _
                                 0 0 5 0 10 5 0%nat s s' Hs Hs'))) _ _ _ Hpos);
    reflexivity.
Defined.

(** C3 as stated fails where the clamp is hit.  A history of 100 pints in
    January and none in February has slope -100, and the fit leaves no
    residual to scale the draws by: the trend is -100 at the first step and
    -200 at the second, and the base supply is clamped to 0 at both.  A boost
    of 10 then leaves the simulated supply where a boost of 0 has it, a
    wastage of 10 leaves it where a wastage of 0 has it, and a shock of 25
    does not raise the first simulated demand. *)
Lemma policy_response_counterexample :
  let history :=
    [ {| hist_created_at := {| year := 2024; month := 1; day := 1 |};
         hist_pints_donated := 100 |};
      {| hist_created_at := {| year := 2024; month := 2; day := 1 |};
         hist_pints_donated := 0 |} ] in
  let steps shock boost waste :=
    fst (projection (R := Sample.seed42)
           {| year := 2024; month := 5; day := 17 |} history 2 shock boost waste) in
  map (fun s => Qeq_bool (base_supply s) 0) (steps 0 0 0)%Q = [true; true]
  /\ map (fun p => Py.lt (sim_supply (fst p)) (sim_supply (snd p)))
         (combine (steps 0 0 0) (steps 0 10 0))%Q
     = [false; false]
  /\ map (fun p => Py.lt (sim_supply (snd p)) (sim_supply (fst p)))
         (combine (steps 0 0 0) (steps 0 0 10))%Q
     = [false; false]
  /\ map (fun p => Py.lt (sim_demand (fst p)) (sim_demand (snd p)))
         (firstn 1 (combine (steps 0 0 0) (steps 25 0 0)))%Q
     = [false].
Proof.
  vm_compute. repeat split.
Qed.

(** ** Defaults for an empty history, and the missing validation *)

(** C4, as the code has it.  Aggregating no record raises nothing: it
    returns an empty history.  [run_simulation] then takes 1000 as the last
    historical total, the clock as the anchor date, slope 0 and volatility 10,
    and returns the projection from these. *)
Theorem empty_history_defaults {R : Runtime} (now : Timestamp) (g : rng)
    (months : Z) (shock boost waste : Q) :
  prepare_history [] = Returned ([], [])
  /\ last_actual_supply_of [] = 1000%Q
  /\ current_date_of now [] = now
  /\ detect_trend [] = (0%Q, 10%Q)
  /\ run_simulation now g [] months shock boost waste
     = (let run := forecast_loop 1000 0 10 shock boost waste now
                     (py_range 1 (months + 1)) 1000 (np_random_seed 42) in
        let forecast_df := map emit (fst run) in
        (Returned (forecast_df,
                   column_mean (map MonthlySupply forecast_df),
                   column_mean (map MonthlyDemand forecast_df)),
         (snd run, []))).
Proof.
  repeat (split; [reflexivity|]).
  rewrite (run_simulation_returned now g [] [] [] _ _ _ _ eq_refl).
  rewrite projection_eq. reflexivity.
Qed.

(** C4 as stated fails in its first half: no [EmptyHistoryError] exists, and
    aggregating no record returns. *)
Lemma empty_history_counterexample :
  Py.raises (prepare_history (R := Sample.quiet) []) = false
  /\ prepare_history (R := Sample.quiet) [] = Returned ([], [])
  /\ fst (run_simulation (R := Sample.quiet)
            {| year := 2024; month := 5; day := 17 |} 7%nat [] 2 0 0 0)
     = Returned ([ {| Date := "Jun 2024"; Inventory := 1050;
                      MonthlySupply := 1000; MonthlyDemand := 950 |};
                   {| Date := "Jul 2024"; Inventory := 1100;
                      MonthlySupply := 1000; MonthlyDemand := 950 |} ],
                 2000 # 2, 1900 # 2).
Proof.
  split; [reflexivity | split; [reflexivity | vm_compute; reflexivity]].
Qed.

Lemma run_simulation_raises {R : Runtime} (now : Timestamp) (g : rng)
    (df : DataFrame) (months : Z) (shock boost waste : Q) :
  Py.raises (fst (run_simulation now g df months shock boost waste))
  = Py.raises (prepare_history df).
Proof.
  destruct (prepare_history df) as [[df' history]|e] eqn:E.
  - rewrite (run_simulation_returned now g df df' history _ _ _ _ E). reflexivity.
  - rewrite (run_simulation_raised now g df e _ _ _ _ E). reflexivity.
Qed.




(** ** The degenerate trend *)

Lemma detect_trend_degenerate {R : Runtime} (history : list MonthlyPoint) :
  (length (recent_window history) <= 1)%nat -> detect_trend history = (0%Q, 10%Q).
Proof.
  intro H. unfold detect_trend.
  destruct (1 <? length (recent_window history))%nat eqn:E; [|reflexivity].
  apply Nat.ltb_lt in E. lia.
Qed.

Lemma recent_window_short (history : list MonthlyPoint) :
  (length history <= 1)%nat <-> (length (recent_window history) <= 1)%nat.
Proof.
  unfold recent_window, lookback.
  destruct (24 <? length history)%nat eqn:E; [|reflexivity].
  apply Nat.ltb_lt in E. rewrite length_skipn. lia.
Qed.

(** C8.  When the lookback window holds at most one monthly point the
    estimator returns slope 0 and volatility 10 without fitting anything, and
    the call returns a forecast of the requested length, projected from these
    two values. *)
Theorem degenerate_trend {R : Runtime} (now : Timestamp) (g : rng)
    (df df' : DataFrame) (history : list MonthlyPoint)
    (months : Z) (shock boost waste : Q) :
  prepare_history df = Returned (df', history) ->
  (length (recent_window history) <= 1)%nat ->
  detect_trend history = (0%Q, 10%Q)
  /\ Py.raises (fst (run_simulation now g df months shock boost waste)) = false
  /\ exists steps g',
       forecast_loop (last_actual_supply_of history) 0 10 shock boost waste
         (current_date_of now history) (py_range 1 (months + 1))
         (last_actual_supply_of history) (np_random_seed 42) = (steps, g')
       /\ length steps = Z.to_nat months
       /\ run_simulation now g df months shock boost waste
          = (Returned (map emit steps,
                       column_mean (map MonthlySupply (map emit steps)),
                       column_mean (map MonthlyDemand (map emit steps))),
             (g', df')).
Proof.
  intros E Hshort.
  pose proof (detect_trend_degenerate history Hshort) as Ht.
  split; [exact Ht|].
  split; [rewrite run_simulation_raises, E; reflexivity|].
  pose proof (projection_length now history months shock boost waste) as Hlen.
  rewrite (run_simulation_returned now g df df' history _ _ _ _ E).
  rewrite projection_eq in *. rewrite Ht in *. cbn [fst snd] in *.
  destruct (forecast_loop _ _ _ _ _ _ _ _ _ _) as [steps g'].
  exists steps, g'. split; [reflexivity | split; [exact Hlen | reflexivity]].
Qed.

Lemma degenerate_trend_witness :
  detect_trend (R := Sample.quiet)
    [ {| hist_created_at := {| year := 2024; month := 1; day := 1 |};
         hist_pints_donated := 1001 |} ] = (0%Q, 10%Q)
  /\ Py.raises (fst (run_simulation (R := Sample.quiet)
                       {| year := 2024; month := 5; day := 17 |} 7%nat
                       [ {| created_at := Raw "2024-01-15"; pints_donated := 1001 |} ]
                       3 0 0 5)) = false.
Proof.
  destruct (degenerate_trend (R := Sample.quiet)
              {| year := 2024; month := 5; day := 17 |} 7%nat
              [ {| created_at := Raw "2024-01-15"; pints_donated := 1001 |} ]
              [ {| created_at := Stamp {| year := 2024; month := 1; day := 15 |};
                   pints_donated := 1001 |} ]
              [ {| hist_created_at := {| year := 2024; month := 1; day := 1 |};
                   hist_pints_donated := 1001 |} ]
              3 0 0 5 eq_refl) as [H1 [H2 _]].
  - cbn. lia.
  - split; [exact H1 | exact H2].
Defined.

(** ** What the call leaves behind *)





(** ** The floor on supply, and its absence on demand *)

Lemma sim_supply_nonneg (b boost waste : Q) :
  (0 <= b -> -100 <= boost -> waste <= 100 ->
   0 <= b * (1 + boost / 100) * (1 - waste / 100))%Q.
Proof.
  intros Hb Hbo Hw.
  pose proof (pct_le (-100) boost Hbo) as P. rewrite pct_neg_100 in P.
  pose proof (pct_le waste 100 Hw) as P'. rewrite pct_100 in P'.
  apply Qmult_le_0_compat; [apply Qmult_le_0_compat|]; [exact Hb | lra | lra].
Qed.

(** C10.  With wastage between 0 and 100 and a boost of at least -100 every
    emitted monthly supply is non-negative, for every history and every noise
    stream.  Demand has no such floor: there are draws for which an emitted
    monthly demand is negative with the three sliders at 0. *)
Theorem supply_floor_only {R : Runtime} (now : Timestamp) (g : rng)
    (df df' : DataFrame) (history : list MonthlyPoint)
    (months : Z) (shock boost waste : Q) :
  (0 <= waste <= 100)%Q -> (-100 <= boost)%Q ->
  prepare_history df = Returned (df', history) ->
  (exists fc avg_sup avg_dem,
      fst (run_simulation now g df months shock boost waste)
      = Returned (fc, avg_sup, avg_dem)
      /\ length fc = Z.to_nat months
      /\ Forall (fun p => 0 <= MonthlySupply p) fc)
  /\ (exists (R' : Runtime) (now' : Timestamp) (g' : @rng R') (df0 : DataFrame)
             (months' : Z) fc' avg_sup' avg_dem',
         fst (run_simulation (R := R') now' g' df0 months' 0 0 0)
         = Returned (fc', avg_sup', avg_dem')
         /\ Exists (fun p => MonthlyDemand p < 0) fc').
Proof.
  intros [_ Hw] Hb E. split.
  - rewrite (run_simulation_returned now g df df' history _ _ _ _ E). cbn zeta.
    eexists _, _, _. split; [reflexivity|].
    split; [rewrite length_map; apply projection_length|].
    rewrite projection_eq. apply Forall_map.
    eapply Forall_impl; [|apply forecast_loop_steps].
    intros s [Hbase [Esup _]]. cbn [emit MonthlySupply]. rewrite Esup.
    apply int_of_nonneg. apply sim_supply_nonneg; assumption.
  - exists Sample.low, {| year := 2024; month := 5; day := 17 |}, 7%nat,
      [ {| created_at := Raw "2024-01-15"; pints_donated := 0 |} ], 2.
    eexists _, _, _. split; [vm_compute; reflexivity|].
    apply Exists_cons_hd. reflexivity.
Qed.

Lemma supply_floor_only_witness :
  exists fc avg_sup avg_dem,
    fst (run_simulation (R := Sample.low)
           {| year := 2024; month := 5; day := 17 |} 7%nat
           [ {| created_at := Raw "2024-01-15"; pints_donated := 20 |} ] 2 0 (-50) 15)
    = Returned (fc, avg_sup, avg_dem)
    /\ length fc = 2%nat
    /\ Forall (fun p => 0 <= MonthlySupply p) fc.
Proof.
  refine (proj1 (supply_floor_only (R := Sample.low)
                   {| year := 2024; month := 5; day := 17 |} 7%nat
                   [ {| created_at := Raw "2024-01-15"; pints_donated := 20 |} ]
                   [ {| created_at := Stamp {| year := 2024; month := 1; day := 15 |};
                        pints_donated := 20 |} ]
                   [ {| hist_created_at := {| year := 2024; month := 1; day := 1 |};
                        hist_pints_donated := 20 |} ]
                   2 0 (-50) 15 _ _ eq_refl)).
  - split; discriminate.
  - discriminate.
Defined.

(** * Further properties of the engine *)

(** ** The steps in closed form *)

Lemma np_random_normal_eq {R : Runtime} (loc scale : Q) (g : rng) :
  np_random_normal loc scale g
  = ((loc + scale * fst (standard_normal g))%Q, advance g).
Proof.
  unfold np_random_normal, advance. destruct (standard_normal g). reflexivity.
Qed.

Lemma iter_advance_shift {R : Runtime} (k : nat) (g : rng) :
  Nat.iter k advance (advance (advance g)) = Nat.iter (2 + k) advance g.
Proof.
  rewrite Nat.add_comm, Nat.iter_add. reflexivity.
Qed.

(** Step [i] of a loop over [a, a+1, ...] started in generator state [g]
    uses draws [2i] and [2i+1] after [g], the supply draw first. *)
Lemma forecast_loop_nth {R : Runtime} (S0 slope vol shock boost waste : Q)
    (d : Timestamp) (a : Z) (n : nat) (inv : Q) (g : rng) (i : nat) (s : Step) :
  nth_error (fst (forecast_loop S0 slope vol shock boost waste d (zrange a n) inv g)) i
  = Some s ->
  next_date s = add_months d (a + Z.of_nat i)
  /\ base_supply s
     = Py.max (S0 + slope * inject_Z (a + Z.of_nat i)
               + (0 + vol * (3 # 10)
                      * fst (standard_normal (Nat.iter (2 * i) advance g)))) 0
  /\ demand_level s
     = (base_supply s * demand_ratio
        + (0 + vol * (15 # 100)
               * fst (standard_normal (Nat.iter (2 * i + 1) advance g))))%Q.
Proof.
  revert a inv g i. induction n as [|n IH]; intros a inv g i.
  - destruct i; discriminate.
  - rewrite zrange_S, forecast_loop_cons. cbn [fst].
    destruct i as [|i]; cbn [nth_error].
    + intro E. injection E as <-. rewrite forecast_step_eq, !np_random_normal_eq.
      cbn [fst snd next_date base_supply demand_level Nat.iter Nat.mul Nat.add].
      replace (a + Z.of_nat 0) with a by lia. repeat split.
    + intro E. rewrite !np_random_normal_eq in E. cbn [fst snd] in E.
      destruct (IH _ _ _ _ E) as [H1 [H2 H3]].
      replace (a + 1 + Z.of_nat i) with (a + Z.of_nat (S i)) in H1, H2 by lia.
      rewrite iter_advance_shift in H2, H3.
      replace (2 + 2 * i)%nat with (2 * S i)%nat in H2 by lia.
      replace (2 + (2 * i + 1))%nat with (2 * S i + 1)%nat in H3 by lia.
      split; [exact H1 | split; [exact H2 | exact H3]].
Qed.

Lemma forecast_loop_state {R : Runtime} (S0 slope vol shock boost waste : Q)
    (d : Timestamp) (ms : list Z) (inv : Q) (g : rng) :
  snd (forecast_loop S0 slope vol shock boost waste d ms inv g)
  = Nat.iter (2 * length ms) advance g.
Proof.
  revert inv g. induction ms as [|m ms IH]; intros inv g; [reflexivity|].
  rewrite forecast_loop_cons. cbn [snd]. rewrite IH, !np_random_normal_eq.
  cbn [fst snd length]. rewrite iter_advance_shift. f_equal. lia.
Qed.

Lemma py_range_from_one (m : Z) : py_range 1 (m + 1) = zrange 1 (Z.to_nat m).
Proof. unfold py_range. f_equal. f_equal. lia. Qed.

(** X1.  Step [i] (from 0) of the projection is dated [i+1] months after the
    anchor, takes its supply noise from draw [2i] and its demand noise from
    draw [2i+1] of the stream that [np.random.seed(42)] starts, and applies
    the sliders to the clamped base supply and to the demand level; the call
    consumes exactly two draws per step. *)
Theorem projection_closed_form {R : Runtime} (now : Timestamp)
    (history : list MonthlyPoint) (months : Z) (shock boost waste : Q)
    (i : nat) (s : Step) :
  nth_error (fst (projection now history months shock boost waste)) i = Some s ->
  next_date s = add_months (current_date_of now history) (1 + Z.of_nat i)
  /\ base_supply s
     = Py.max (last_actual_supply_of history
               + fst (detect_trend history) * inject_Z (1 + Z.of_nat i)
               + (0 + snd (detect_trend history) * (3 # 10) * draw (2 * i))) 0
  /\ demand_level s
     = (base_supply s * demand_ratio
        + (0 + snd (detect_trend history) * (15 # 100) * draw (2 * i + 1)))%Q
  /\ sim_supply s = (base_supply s * (1 + boost / 100) * (1 - waste / 100))%Q
  /\ sim_demand s = (demand_level s * (1 + shock / 100))%Q
  /\ snd (projection now history months shock boost waste)
     = stream_state (2 * Z.to_nat months).
Proof.
  rewrite projection_eq, py_range_from_one. intro Hs.
  destruct (forecast_loop_nth _ _ _ _ _ _ _ _ _ _ _ _ _ Hs) as [H1 [H2 H3]].
  pose proof (forecast_loop_steps (last_actual_supply_of history)
                (fst (detect_trend history)) (snd (detect_trend history))
                shock boost waste (current_date_of now history)
                (zrange 1 (Z.to_nat months)) (last_actual_supply_of history)
                (np_random_seed 42)) as F.
  rewrite Forall_forall in F.
  destruct (F s (nth_error_In _ _ Hs)) as [_ [Esup Edem]].
  split; [exact H1 | split; [exact H2 | split; [exact H3|]]].
  split; [exact Esup | split; [exact Edem|]].
  rewrite forecast_loop_state, zrange_length. reflexivity.
Qed.

Lemma projection_closed_form_witness :
  exists s,
    nth_error (fst (projection (R := Sample.low)
                      {| year := 2024; month := 5; day := 17 |}
                      [ {| hist_created_at := {| year := 2024; month := 1; day := 1 |};
                           hist_pints_donated := 1001 |} ] 3 0 10 5)) 1 = Some s
    /\ next_date s = {| year := 2024; month := 3; day := 1 |}
    /\ snd (projection (R := Sample.low)
              {| year := 2024; month := 5; day := 17 |}
              [ {| hist_created_at := {| year := 2024; month := 1; day := 1 |};
                   hist_pints_donated := 1001 |} ] 3 0 10 5) = 6%nat.
Proof.
  destruct (nth_error (fst (projection (R := Sample.low)
                      {| year := 2024; month := 5; day := 17 |}
                      [ {| hist_created_at := {| year := 2024; month := 1; day := 1 |};
                           hist_pints_donated := 1001 |} ] 3 0 10 5)) 1)
    as [s|] eqn:Hs; [|vm_compute in Hs; discriminate].
  exists s. split; [reflexivity|].
  destruct (projection_closed_form (R := Sample.low) _ _ _ _ _ _ _ _ Hs)
    as [H1 [_ [_ [_ [_ H6]]]]].
  split; [rewrite H1; reflexivity | rewrite H6; reflexivity].
Defined.

(** ** Rows and labels of the forecast *)





(** ** The balance as a sum of flows *)

Lemma Qsum_app (l l' : list Q) : (Qsum (l ++ l') == Qsum l + Qsum l')%Q.
Proof.
  induction l as [|x l IH]; simpl; [ring | rewrite IH; ring].
Qed.

Lemma firstn_snoc {A : Type} (l : list A) (i : nat) (a : A) :
  nth_error l i = Some a -> firstn (S i) l = firstn i l ++ [a].
Proof.
  revert i. induction l as [|x l IH]; intros [|i] H; try discriminate.
  - injection H as ->. reflexivity.
  - cbn [nth_error] in H. cbn [firstn app]. rewrite <- (IH i H). reflexivity.
Qed.

Lemma balance_telescopes (start : Q) (steps : list Step) :
  (forall i s, nth_error steps i = Some s ->
     current_inventory s
     = (balance_before start steps i + (sim_supply s - sim_demand s))%Q) ->
  forall i s, nth_error steps i = Some s ->
    (current_inventory s == start + net_flow (firstn (S i) steps))%Q.
Proof.
  intros Hbal. induction i as [|i IH]; intros s Hs.
  - rewrite (Hbal _ _ Hs). cbn [balance_before].
    rewrite (firstn_snoc _ _ _ Hs). unfold net_flow. cbn. ring.
  - rewrite (Hbal _ _ Hs). cbn [balance_before].
    destruct (nth_error steps i) as [s'|] eqn:Hs'.
    + rewrite (IH s' eq_refl), (firstn_snoc _ _ _ Hs).
      unfold net_flow. rewrite map_app, Qsum_app. cbn. ring.
    + apply nth_error_None in Hs'.
      assert (S i < length steps)%nat by (apply nth_error_Some; rewrite Hs; discriminate).
      lia.
Qed.

(** [int] sees the value of a rational, not its representation. *)
Lemma int_proper (x y : Q) : (x == y)%Q -> Py.int x = Py.int y.
Proof.
  intro E.
  assert (H : (inject_Z (Py.int x - Py.int y) < inject_Z 1
               /\ inject_Z (-1) < inject_Z (Py.int x - Py.int y))%Q).
  { unfold Z.sub. rewrite inject_Z_plus, inject_Z_opp.
    change (inject_Z 1) with 1%Q. change (inject_Z (-1)) with (-1)%Q.
    int_cases x; int_cases y; split; lra. }
  destruct H as [H1 H2]. rewrite <- Zlt_Qlt in H1, H2. lia.
Qed.

Lemma rev_head_last {A : Type} (l : list A) (a : A) :
  nth_error l (length l - 1) = Some a ->
  exists l', rev l = a :: l'.
Proof.
  intro H. destruct (rev l) as [|b l'] eqn:E.
  - apply (f_equal (@rev _)) in E. rewrite rev_involutive in E. subst l.
    discriminate.
  - exists l'. f_equal.
    apply (f_equal (@rev _)) in E. rewrite rev_involutive in E. subst l.
    cbn [rev] in H. rewrite length_app in H. cbn [length] in H.
    rewrite nth_error_app2 in H by lia.
    replace (length (rev l') + 1 - 1 - length (rev l'))%nat with 0%nat in H by lia.
    cbn in H. congruence.
Qed.

(** X3.  The final inventory read by the dashboard
    ([forecast_df.iloc[-1]['Inventory']]) is the truncation of the last
    historical total plus the whole net flow of the forecast, supply minus
    demand summed over all steps; with a horizon of zero or less the forecast
    is empty and the read raises [IndexError]. *)
Theorem final_inventory_of_run {R : Runtime} (now : Timestamp) (g : rng)
    (df df' : DataFrame) (history : list MonthlyPoint)
    (months : Z) (shock boost waste : Q) :
  prepare_history df = Returned (df', history) ->
  exists fc avg_sup avg_dem,
    fst (run_simulation now g df months shock boost waste)
    = Returned (fc, avg_sup, avg_dem)
    /\ (months <= 0 -> final_inventory fc = Raised IndexError)
    /\ (0 < months ->
        final_inventory fc
        = Returned (Py.int (last_actual_supply_of history
                            + net_flow (fst (projection now history months
                                               shock boost waste))))).
Proof.
  intro E. rewrite (run_simulation_returned now g df df' history _ _ _ _ E).
  cbn zeta. eexists _, _, _. split; [reflexivity|].
  pose proof (projection_length now history months shock boost waste) as Hlen.
  set (steps := fst (projection now history months shock boost waste)) in *.
  split.
  - intro Hm. destruct steps; [reflexivity | cbn in Hlen; lia].
  - intro Hm.
    destruct (nth_error steps (length steps - 1)) as [s|] eqn:Hs.
    2:{ apply nth_error_None in Hs. lia. }
    destruct (rev_head_last (map emit steps) (emit s)) as [l' El'].
    { rewrite length_map, nth_error_map, Hs. reflexivity. }
    unfold final_inventory. rewrite El'. f_equal.
    cbn [emit Inventory]. apply int_proper.
    assert (Hbal : forall i s0, nth_error steps i = Some s0 ->
              current_inventory s0
              = (balance_before (last_actual_supply_of history) steps i
                 + (sim_supply s0 - sim_demand s0))%Q).
    { intros i s0 H0. subst steps. rewrite projection_eq in H0 |- *.
      exact (forecast_loop_balance _ _ _ _ _ _ _ _ _ _ i s0 H0). }
    rewrite (balance_telescopes _ _ Hbal _ _ Hs).
    replace (S (length steps - 1)) with (length steps) by lia.
    rewrite firstn_all. reflexivity.
Qed.

Lemma final_inventory_of_run_witness :
  exists fc avg_sup avg_dem,
    fst (run_simulation (R := Sample.quiet)
           {| year := 2024; month := 5; day := 17 |} 7%nat
           [ {| created_at := Raw "2024-11-15"; pints_donated := 1001 |} ] 3 0 0 0)
    = Returned (fc, avg_sup, avg_dem)
    /\ final_inventory fc = Returned 1151.
Proof.
  destruct (final_inventory_of_run (R := Sample.quiet)
              {| year := 2024; month := 5; day := 17 |} 7%nat
              [ {| created_at := Raw "2024-11-15"; pints_donated := 1001 |} ]
              [ {| created_at := Stamp {| year := 2024; month := 11; day := 15 |};
                   pints_donated := 1001 |} ]
              [ {| hist_created_at := {| year := 2024; month := 11; day := 1 |};
                   hist_pints_donated := 1001 |} ]
              3 0 0 0 eq_refl) as [fc [a [b [H1 [_ H3]]]]].
  exists fc, a, b. split; [exact H1|].
  rewrite (H3 eq_refl). vm_compute. reflexivity.
Defined.

(** ** Only the lookback window reaches the projection *)

Lemma recent_window_app (old h : list MonthlyPoint) :
  (lookback <= length h)%nat -> recent_window (old ++ h) = recent_window h.
Proof.
  unfold recent_window, lookback. intro H. rewrite length_app.
  destruct (24 <? length old + length h)%nat eqn:E.
  - apply Nat.ltb_lt in E. rewrite skipn_app.
    rewrite skipn_all2 by lia. cbn [app].
    replace (length old + length h - 24 - length old)%nat
      with (length h - 24)%nat by lia.
    destruct (24 <? length h)%nat eqn:E'; [reflexivity|].
    apply Nat.ltb_ge in E'. replace (length h - 24)%nat with 0%nat by lia.
    reflexivity.
  - apply Nat.ltb_ge in E. destruct old; [|cbn in E; lia].
    cbn [app]. destruct (24 <? length h)%nat eqn:E'; [|reflexivity].
    apply Nat.ltb_lt in E'. cbn in E. lia.
Qed.

Lemma rev_app_head {A : Type} (old h : list A) :
  h <> [] -> exists a l, rev h = a :: l /\ rev (old ++ h) = a :: l ++ rev old.
Proof.
  intro Hne. destruct (rev h) as [|a l] eqn:E.
  - apply (f_equal (@rev _)) in E. rewrite rev_involutive in E. contradiction.
  - exists a, l. split; [reflexivity|]. rewrite rev_app_distr, E. reflexivity.
Qed.

(** X4.  Monthly points older than the 24-point lookback window never reach
    the result: prepending any older history to a history of at least 24
    points leaves the slope, the volatility and the whole projection as they
    are. *)
Theorem projection_sees_window_only {R : Runtime} (now : Timestamp)
    (old h : list MonthlyPoint) (months : Z) (shock boost waste : Q) :
  (lookback <= length h)%nat ->
  detect_trend (old ++ h) = detect_trend h
  /\ projection now (old ++ h) months shock boost waste
     = projection now h months shock boost waste.
Proof.
  intro H.
  assert (Ht : detect_trend (old ++ h) = detect_trend h).
  { unfold detect_trend. rewrite (recent_window_app old h H). reflexivity. }
  split; [exact Ht|].
  assert (Hne : h <> []) by (destruct h; [cbn in H; unfold lookback in H; lia | discriminate]).
  destruct (rev_app_head old h Hne) as [a [l [E1 E2]]].
  rewrite !projection_eq, Ht.
  unfold last_actual_supply_of, current_date_of. rewrite E1, E2. reflexivity.
Qed.

Lemma projection_sees_window_only_witness :
  detect_trend (R := Sample.quiet)
    ([ {| hist_created_at := month_start 24000; hist_pints_donated := 5 |} ]
       ++ map (fun k => {| hist_created_at := month_start k;
                           hist_pints_donated := 1000 |}) (zrange 24001 24))
  = detect_trend (R := Sample.quiet)
      (map (fun k => {| hist_created_at := month_start k;
                        hist_pints_donated := 1000 |}) (zrange 24001 24)).
Proof.
  refine (proj1 (projection_sees_window_only (R := Sample.quiet)
                   {| year := 2024; month := 5; day := 17 |} _ _ 3 0 0 0 _)).
  rewrite length_map, zrange_length. unfold lookback. lia.
Defined.

(** ** Status badge, cards and gauge *)

Lemma badge_text_cases (bal : Q) (days : pyfloat) :
  (snd (status_badge bal days) = "INVENTORY GROWING"%string /\ (0 <= bal)%Q)
  \/ (snd (status_badge bal days) = "SLOW DEPLETION"%string
      /\ (bal < 0)%Q /\ pyfloat_gt days 10 = true)
  \/ (snd (status_badge bal days) = "CRITICAL DEPLETION"%string
      /\ (bal < 0)%Q /\ pyfloat_gt days 10 = false).
Proof.
  unfold status_badge.
  destruct (Qle_bool 0 bal) eqn:E.
  - left. split; [reflexivity | apply Qle_bool_iff; exact E].
  - assert (Hneg : (bal < 0)%Q).
    { apply Qnot_le_lt. intro H. apply Qle_bool_iff in H. congruence. }
    destruct (pyfloat_gt days 10) eqn:E'.
    + right. left. repeat split; assumption.
    + right. right. repeat split; assumption.
Qed.

(** X5.  The three status displays agree with one another.  The badge reads
    INVENTORY GROWING exactly when the net-flow card reads Surplus.  When the
    badge reads CRITICAL DEPLETION the mean demand is positive and exceeds the
    mean supply, and the days-of-supply card is red or amber, never green.
    With a mean demand of zero or less the days of supply are infinite, the
    card is green and the badge never reads CRITICAL DEPLETION. *)
Theorem status_displays_agree (forecast_df : list ForecastPoint)
    (monthly_sup monthly_dem : Q) (final_inv : Z) (bal : Q) (days : pyfloat) :
  global_metrics forecast_df monthly_sup monthly_dem = Returned (final_inv, bal, days) ->
  (snd (status_badge bal days) = "INVENTORY GROWING"%string
   <-> snd (net_card bal) = "Surplus"%string)
  /\ (snd (status_badge bal days) = "CRITICAL DEPLETION"%string ->
      (0 < monthly_dem)%Q /\ (monthly_sup < monthly_dem)%Q
      /\ dos_color days <> "#4ade80"%string)
  /\ ((monthly_dem <= 0)%Q ->
      days = Inf /\ dos_color days = "#4ade80"%string
      /\ snd (status_badge bal days) <> "CRITICAL DEPLETION"%string).
Proof.
  unfold global_metrics. intro E.
  destruct (final_inventory forecast_df) as [fi|]; [|discriminate].
  cbn [Py.bind] in E.
  assert (Hdays : days_of_supply final_inv monthly_dem = Returned days
                  /\ bal = (monthly_sup - monthly_dem)%Q).
  { destruct (days_of_supply fi monthly_dem) as [d|] eqn:Ed; [|discriminate].
    cbn [Py.bind] in E. injection E as -> <- ->. split; [exact Ed | reflexivity]. }
  clear E. destruct Hdays as [Ed ->].
  split; [|split].
  - unfold status_badge, net_card.
    destruct (Qle_bool 0 (monthly_sup - monthly_dem)); cbn [snd].
    + split; reflexivity.
    + destruct (pyfloat_gt days 10); cbn [snd]; split; discriminate.
  - intro Hc.
    destruct (badge_text_cases (monthly_sup - monthly_dem) days)
      as [[H _]|[[H _]|[_ [Hneg Hgt]]]];
      [rewrite H in Hc; discriminate | rewrite H in Hc; discriminate|].
    destruct (Qlt_le_dec 0 monthly_dem) as [Hpos|Hle].
    + split; [exact Hpos | split; [lra|]].
      destruct days as [q|]; [|discriminate].
      cbn [pyfloat_gt] in Hgt. apply lt_false_iff in Hgt.
      unfold dos_color, pyfloat_lt.
      destruct (Py.lt q 7); [discriminate|].
      assert (H14 : Py.lt q 14 = true) by (apply lt_true_iff; lra).
      rewrite H14. discriminate.
    + rewrite (proj1 (guards_nonpositive final_inv monthly_sup _ Hle)) in Ed.
      injection Ed as <-. discriminate.
  - intro Hle.
    rewrite (proj1 (guards_nonpositive final_inv monthly_sup _ Hle)) in Ed.
    injection Ed as <-. split; [reflexivity | split; [reflexivity|]].
    unfold status_badge.
    destruct (Qle_bool 0 (monthly_sup - monthly_dem)); cbn; discriminate.
Qed.

Lemma status_displays_agree_witness :
  snd (status_badge (900 - 1000) (Fin (270 / (1000 / 30)))) = "CRITICAL DEPLETION"%string
  /\ dos_color (Fin (270 / (1000 / 30))) <> "#4ade80"%string.
Proof.
  split; [reflexivity|].
  refine (proj2 (proj2 (proj1 (proj2 (status_displays_agree
            [ {| Date := "Feb 2024"; Inventory := 270;
                 MonthlySupply := 900; MonthlyDemand := 1000 |} ]
            900 1000 270 (900 - 1000) (Fin (270 / (1000 / 30))) eq_refl)) eq_refl))).
Defined.

Lemma ratio_scaled (sup dem : Q) :
  (0 < dem)%Q -> (sup / dem * 100 * dem == 100 * sup)%Q.
Proof. intro H. field. lra. Qed.

(** X6.  The gauge reads OPTIMAL whenever the mean demand is positive and
    the mean supply lies between 90.000001 and 119.999999 per cent of it.  It
    reads IMBALANCED whenever the mean demand is zero or less (the coverage
    ratio is then 0), and whenever the mean supply is at most 89.999999 or at
    least 120.000001 per cent of a positive mean demand.  Within a millionth
    of a per cent of the two thresholds the reading follows the rounding of
    the quotient and is not stated. *)
Theorem gauge_optimal_band (monthly_sup monthly_dem : Q) :
  exists ratio,
    coverage_ratio monthly_sup monthly_dem = Returned ratio
    /\ ((monthly_dem <= 0)%Q ->
        ratio = 0%Q /\ snd (health ratio) = "IMBALANCED"%string)
    /\ ((0 < monthly_dem)%Q ->
        ((90000001 # 1000000) * monthly_dem <= 100 * monthly_sup)%Q ->
        (100 * monthly_sup <= (119999999 # 1000000) * monthly_dem)%Q ->
        snd (health ratio) = "OPTIMAL"%string)
    /\ ((0 < monthly_dem)%Q ->
        (100 * monthly_sup <= (89999999 # 1000000) * monthly_dem
         \/ (120000001 # 1000000) * monthly_dem <= 100 * monthly_sup)%Q ->
        snd (health ratio) = "IMBALANCED"%string).
Proof.
  destruct (Qlt_le_dec 0 monthly_dem) as [Hpos|Hle].
  - exists (monthly_sup / monthly_dem * 100)%Q.
    split; [apply coverage_ratio_positive; exact Hpos|].
    pose proof (ratio_scaled monthly_sup monthly_dem Hpos) as Hr.
    set (r := (monthly_sup / monthly_dem * 100)%Q) in *.
    assert (Hge : Qle_bool 90 r = true <-> (90 * monthly_dem <= 100 * monthly_sup)%Q).
    { rewrite Qle_bool_iff, <- Hr. split; intro H.
      - apply Qmult_le_compat_r; [exact H | lra].
      - apply Qmult_le_r in H; assumption. }
    assert (Hle : Qle_bool r 120 = true <-> (100 * monthly_sup <= 120 * monthly_dem)%Q).
    { rewrite Qle_bool_iff, <- Hr. split; intro H.
      - apply Qmult_le_compat_r; [exact H | lra].
      - apply Qmult_le_r in H; assumption. }
    split; [intro H; lra|]. split.
    + intros _ H1 H2. unfold health.
      rewrite (proj2 Hge) by lra. rewrite (proj2 Hle) by lra. reflexivity.
    + intros _ [H|H]; unfold health.
      * destruct (Qle_bool 90 r); [|reflexivity].
        pose proof (proj1 Hge eq_refl). lra.
      * destruct (Qle_bool r 120); [|rewrite andb_false_r; reflexivity].
        pose proof (proj1 Hle eq_refl). lra.
  - exists 0%Q.
    split; [exact (proj2 (guards_nonpositive 0 monthly_sup _ Hle))|].
    split; [intros _; split; reflexivity|].
    split; intro H; lra.
Qed.

Lemma gauge_optimal_band_witness :
  exists ratio,
    coverage_ratio 1000 950 = Returned ratio
    /\ snd (health ratio) = "OPTIMAL"%string.
Proof.
  destruct (gauge_optimal_band 1000 950) as [ratio [H1 [_ [H3 _]]]].
  exists ratio. split; [exact H1|].
  apply H3; [reflexivity | discriminate | discriminate].
Defined.

(** ** The waterfall *)

(** X7.  The waterfall chart closes: its last bar, End Inventory, stands at
    starting stock plus donations minus transfusions minus wastage, that is
    at [(125 - wastage_rate) / 100] of the mean supply minus the mean demand.
    It is therefore at or above zero whenever the mean supply is
    non-negative, covers the mean demand, and the spoilage rate is at most
    25 per cent (the slider stops at 15). *)
Theorem waterfall_closes (monthly_sup monthly_dem wastage_rate : Q) :
  exists start_level donated transfused wasted,
    waterfall_levels 0 (waterfall_bars monthly_sup monthly_dem wastage_rate)
    = [start_level; donated; transfused; wasted; wasted]
    /\ (wasted == monthly_sup * ((125 - wastage_rate) / 100) - monthly_dem)%Q
    /\ ((0 <= wasted)%Q
        <-> (monthly_dem + monthly_sup * (wastage_rate / 100)
             <= monthly_sup * (125 # 100))%Q)
    /\ ((0 <= monthly_sup)%Q -> (monthly_dem <= monthly_sup)%Q ->
        (wastage_rate <= 25)%Q -> (0 <= wasted)%Q).
Proof.
  eexists _, _, _, _. split; [reflexivity|].
  assert (E : (monthly_sup * (25 # 100) + monthly_sup + - monthly_dem
               + - (monthly_sup * (wastage_rate / 100))
               == monthly_sup * ((125 - wastage_rate) / 100) - monthly_dem)%Q)
    by field.
  split; [exact E|]. split.
  - split; intro H; lra.
  - intros Hs Hd Hw. rewrite E.
    assert (Hf : (1 <= (125 - wastage_rate) / 100)%Q).
    { pose proof (pct_le 100 (125 - wastage_rate) ltac:(lra)) as P.
      rewrite pct_100 in P. exact P. }
    assert (Hm : (monthly_sup * 1 <= monthly_sup * ((125 - wastage_rate) / 100))%Q).
    { rewrite !(Qmult_comm monthly_sup). apply Qmult_le_compat_r; assumption. }
    lra.
Qed.

(** ** Toggling a state from the map *)

Lemma existsb_eqb_In (c : string) (l : list string) :
  existsb (String.eqb c) l = true <-> In c l.
Proof.
  rewrite existsb_exists. split.
  - intros [x [Hx E]]. apply String.eqb_eq in E. subst. exact Hx.
  - intro H. exists c. split; [exact H | apply String.eqb_refl].
Qed.

Lemma list_remove_split (c : string) (l : list string) :
  In c l ->
  exists l1 l2,
    l = l1 ++ c :: l2 /\ ~ In c l1 /\ list_remove c l = Some (l1 ++ l2).
Proof.
  induction l as [|y l IH]; intro H; [contradiction|].
  cbn [list_remove]. destruct (String.eqb y c) eqn:E.
  - apply String.eqb_eq in E. subst y.
    exists [], l. split; [reflexivity | split; [intros [] | reflexivity]].
  - apply String.eqb_neq in E.
    destruct H as [H|H]; [contradiction|].
    destruct (IH H) as [l1 [l2 [E1 [E2 E3]]]].
    exists (y :: l1), l2. rewrite E3, E1. cbn.
    split; [reflexivity | split; [|reflexivity]].
    intros [Hy|Hin]; [congruence | contradiction].
Qed.

Lemma list_remove_last (c : string) (l : list string) :
  ~ In c l -> list_remove c (l ++ [c]) = Some l.
Proof.
  induction l as [|y l IH]; intro H; cbn [app list_remove].
  - rewrite String.eqb_refl. reflexivity.
  - destruct (String.eqb y c) eqn:E.
    + apply String.eqb_eq in E. subst. exfalso. apply H. left. reflexivity.
    + rewrite IH; [reflexivity|]. intro Hin. apply H. right. exact Hin.
Qed.


(** X9.  Clicking the same named state twice restores the selection when the
    state was not selected; when it was selected once, the two clicks move it
    to the end of the list and leave the other states in their order. *)
Theorem toggle_state_twice (clicked_state : string) (current_pills : list string) :
  clicked_state <> ""%string ->
  (~ In clicked_state current_pills ->
   match toggle_state clicked_state current_pills with
   | Some once => toggle_state clicked_state once
   | None => None
   end = Some current_pills)
  /\ (count_occ string_dec current_pills clicked_state = 1%nat ->
      match toggle_state clicked_state current_pills with
      | Some once => toggle_state clicked_state once
      | None => None
      end
      = Some (filter (fun y => negb (String.eqb y clicked_state)) current_pills
              ++ [clicked_state])).
Proof.
  intro Hne. apply String.eqb_neq in Hne. unfold toggle_state. rewrite Hne.
  split.
  - intro Hnot.
    assert (E : existsb (String.eqb clicked_state) current_pills = false).
    { destruct (existsb _ current_pills) eqn:E; [|reflexivity].
      apply existsb_eqb_In in E. contradiction. }
    rewrite E.
    assert (E' : existsb (String.eqb clicked_state) (current_pills ++ [clicked_state]) = true).
    { apply existsb_eqb_In. apply in_or_app. right. left. reflexivity. }
    rewrite E'. apply list_remove_last. exact Hnot.
  - intro Hone.
    assert (Hin : In clicked_state current_pills).
    { apply (count_occ_In string_dec). lia. }
    destruct (list_remove_split _ _ Hin) as [l1 [l2 [E1 [E2 E3]]]].
    rewrite (proj2 (existsb_eqb_In _ _) Hin), E3.
    assert (Hnot2 : ~ In clicked_state l2).
    { subst current_pills. rewrite count_occ_app in Hone. cbn in Hone.
      destruct (string_dec clicked_state clicked_state); [|congruence].
      intro H. apply (count_occ_In string_dec) in H. lia. }
    assert (Hnot : ~ In clicked_state (l1 ++ l2)).
    { intro H. apply in_app_or in H. tauto. }
    assert (E : existsb (String.eqb clicked_state) (l1 ++ l2) = false).
    { destruct (existsb _ (l1 ++ l2)) eqn:E; [|reflexivity].
      apply existsb_eqb_In in E. contradiction. }
    rewrite E. f_equal. f_equal. subst current_pills.
    assert (Hf : forall l, ~ In clicked_state l ->
              filter (fun y => negb (String.eqb y clicked_state)) l = l).
    { induction l as [|y l IH]; intro H; [reflexivity|]. cbn.
      destruct (String.eqb y clicked_state) eqn:Ey.
      - apply String.eqb_eq in Ey. subst. exfalso. apply H. left. reflexivity.
      - cbn. rewrite IH; [reflexivity|]. intro Hi. apply H. right. exact Hi. }
    rewrite filter_app. cbn. rewrite String.eqb_refl. cbn.
    rewrite (Hf l1 E2), (Hf l2 Hnot2). reflexivity.
Qed.

Lemma toggle_state_twice_witness :
  match toggle_state "Victoria" ["Tasmania"; "Queensland"]%string with
  | Some once => toggle_state "Victoria" once
  | None => None
  end = Some ["Tasmania"; "Queensland"]%string.
Proof.
  refine (proj1 (toggle_state_twice "Victoria" ["Tasmania"; "Queensland"]%string _) _).
  - discriminate.
  - intros [H|[H|[]]]; discriminate.
Defined.

(** ** Blood-type shares and allocation *)

Lemma insert_key_perm (k : string) (ks : list string) :
  Permutation (insert_key k ks) (k :: ks).
Proof.
  induction ks as [|k' ks IH]; cbn [insert_key]; [reflexivity|].
  destruct (String.leb k k'); [reflexivity|].
  rewrite IH. apply perm_swap.
Qed.

Lemma group_keys_perm (col : list string) :
  Permutation (group_keys col) (nodup string_dec col).
Proof.
  unfold group_keys. induction (nodup string_dec col) as [|k ks IH]; [reflexivity|].
  cbn [fold_right]. rewrite insert_key_perm, IH. reflexivity.
Qed.

Lemma group_keys_NoDup (col : list string) : NoDup (group_keys col).
Proof.
  apply (Permutation_NoDup (Permutation_sym (group_keys_perm col))).
  apply NoDup_nodup.
Qed.

Lemma group_keys_In (col : list string) (k : string) :
  In k (group_keys col) <-> In k col.
Proof.
  split; intro H.
  - apply (nodup_In string_dec). exact (Permutation_in _ (group_keys_perm col) H).
  - apply (nodup_In string_dec) in H.
    exact (Permutation_in _ (Permutation_sym (group_keys_perm col)) H).
Qed.

Lemma key_indicator_out (m : string) (q : Q) (l : list string) :
  ~ In m l ->
  (Qsum (map (fun k => if String.eqb m k then q else 0) l) == 0)%Q.
Proof.
  induction l as [|k l IH]; intro H; [reflexivity|]. cbn.
  destruct (String.eqb m k) eqn:E.
  - apply String.eqb_eq in E. subst. exfalso. apply H. left. reflexivity.
  - rewrite IH; [ring|]. intro Hin. apply H. right. exact Hin.
Qed.

Lemma key_indicator_in (m : string) (q : Q) (l : list string) :
  NoDup l -> In m l ->
  (Qsum (map (fun k => if String.eqb m k then q else 0) l) == q)%Q.
Proof.
  induction 1 as [|k l Hk Hnd IH]; intro Hin; [contradiction|]. cbn.
  destruct (String.eqb m k) eqn:E.
  - apply String.eqb_eq in E. subst. rewrite key_indicator_out by exact Hk. ring.
  - apply String.eqb_neq in E. destruct Hin as [Hin|Hin]; [congruence|].
    rewrite IH by exact Hin. ring.
Qed.

(** Grouping neither loses nor invents volume. *)
Lemma groupby_sum_conservation (rows : list (string * Q)) :
  (Qsum (map snd (groupby_sum rows)) == Qsum (map snd rows))%Q.
Proof.
  unfold groupby_sum. rewrite map_map. cbn [snd].
  pose proof (group_keys_NoDup (map fst rows)) as Hnd.
  assert (Hin : forall r, In r rows -> In (fst r) (group_keys (map fst rows))).
  { intros r Hr. apply group_keys_In. apply in_map. exact Hr. }
  revert Hnd Hin. generalize (group_keys (map fst rows)) as keys.
  intros keys Hnd. induction rows as [|r rows IH]; intro Hin.
  - clear Hin Hnd. induction keys as [|k keys IHk]; [reflexivity|].
    cbn [map filter Qsum fold_right] in *. rewrite IHk. ring.
  - cbn [map Qsum fold_right].
    rewrite <- IH by (intros y Hy; apply Hin; right; exact Hy).
    rewrite <- (key_indicator_in (fst r) (snd r) keys Hnd)
      by (apply Hin; left; reflexivity).
    rewrite <- Qsum_map_plus. apply Qsum_map_ext. intros k _. cbn.
    destruct (String.eqb (fst r) k); cbn; unfold Qsum; ring.
Qed.

Lemma groupby_sum_nonneg (rows : list (string * Q)) :
  (forall r, In r rows -> (0 <= snd r)%Q) ->
  Forall (fun g => (0 <= snd g)%Q) (groupby_sum rows).
Proof.
  intro H. unfold groupby_sum. apply Forall_map. apply Forall_forall.
  intros k _. cbn [snd].
  induction rows as [|r rows IH]; [apply Qle_refl|].
  assert (Hr : (0 <= snd r)%Q) by (apply H; left; reflexivity).
  assert (IH' : (0 <= Qsum (map snd (filter (fun r0 => String.eqb (fst r0) k) rows)))%Q)
    by (apply IH; intros y Hy; apply H; right; exact Hy).
  cbn [filter]. destruct (String.eqb (fst r) k); [|exact IH'].
  cbn [map]. unfold Qsum in *. cbn [fold_right]. lra.
Qed.

Lemma coverage_value (monthly_sup monthly_dem ratio : Q) :
  coverage monthly_sup monthly_dem ratio
  = Returned (if 0 <? allocated monthly_dem ratio
              then (inject_Z (allocated monthly_sup ratio)
                    / inject_Z (allocated monthly_dem ratio))%Q
              else 1%Q).
Proof.
  unfold coverage. destruct (0 <? allocated monthly_dem ratio) eqn:E; [|reflexivity].
  apply Z.ltb_lt in E. apply div_returns. unfold Qeq. cbn. lia.
Qed.

(** The rows [type_data] builds from finite shares: two per blood type. *)
Lemma type_data_finite (monthly_sup monthly_dem : Q) (shares : list (string * Q)) :
  type_data monthly_sup monthly_dem (map (fun g => (fst g, Some (snd g))) shares)
  = Some (flat_map
            (fun g =>
               let c := if 0 <? allocated monthly_dem (snd g)
                        then (inject_Z (allocated monthly_sup (snd g))
                              / inject_Z (allocated monthly_dem (snd g)))%Q
                        else 1%Q in
               [ {| BloodType := fst g; Category := "Supply";
                    Units := allocated monthly_sup (snd g); Coverage := c |};
                 {| BloodType := fst g; Category := "Demand";
                    Units := allocated monthly_dem (snd g); Coverage := c |} ])
            shares).
Proof.
  induction shares as [|[k r] shares IH]; [reflexivity|].
  cbn [map fst snd type_data]. rewrite coverage_value, IH. reflexivity.
Qed.

Lemma supply_dist_finite (rows : list (string * Q)) :
  ~ (Qsum (map snd rows) == 0)%Q ->
  supply_dist rows
  = map (fun g => (fst g, Some (snd g)))
        (map (fun g => (fst g, (snd g / Qsum (map snd rows))%Q)) (groupby_sum rows)).
Proof.
  intro H. unfold supply_dist. rewrite (Qeq_bool_false_of_neq _ _ H), map_map.
  reflexivity.
Qed.

Lemma allocation_sum (monthly : Q) (shares : list (string * Q)) :
  (0 <= monthly)%Q -> Forall (fun g => (0 <= snd g)%Q) shares ->
  (inject_Z (Zsum (map (fun g => allocated monthly (snd g)) shares))
   <= monthly * Qsum (map snd shares)
   /\ monthly * Qsum (map snd shares)
      <= inject_Z (Zsum (map (fun g => allocated monthly (snd g)) shares))
         + Qnat (length shares))%Q
  /\ 0 <= Zsum (map (fun g => allocated monthly (snd g)) shares).
Proof.
  intro Hm. induction 1 as [|g shares Hg _ IH].
  - cbn [map Zsum fold_right Qsum length]. unfold Qnat. cbn [Z.of_nat].
    change (inject_Z 0) with 0%Q. split; [split; lra | lia].
  - destruct IH as [[IH1 IH2] IH3].
    assert (Hp : (0 <= monthly * snd g)%Q) by (apply Qmult_le_0_compat; assumption).
    destruct (int_nonneg _ Hp) as [B1 B2].
    pose proof (int_of_nonneg _ Hp) as B3.
    cbn [map Zsum fold_right length Qsum]. unfold allocated at 1 3 5.
    rewrite inject_Z_plus.
    assert (En : (Qnat (S (length shares)) == 1 + Qnat (length shares))%Q).
    { unfold Qnat. rewrite Nat2Z.inj_succ, <- Z.add_1_l, inject_Z_plus. reflexivity. }
    rewrite En.
    assert (Ed : (monthly * (snd g + Qsum (map snd shares))
                  == monthly * snd g + monthly * Qsum (map snd shares))%Q) by ring.
    rewrite Ed. unfold Zsum in *. split; [split; lra | lia].
Qed.

Lemma units_of_flat_map (monthly_sup monthly_dem : Q) (shares : list (string * Q))
    (c : string * Q -> Q) :
  let rows := flat_map
                (fun g =>
                   [ {| BloodType := fst g; Category := "Supply";
                        Units := allocated monthly_sup (snd g); Coverage := c g |};
                     {| BloodType := fst g; Category := "Demand";
                        Units := allocated monthly_dem (snd g); Coverage := c g |} ])
                shares in
  units_of "Supply" rows = Zsum (map (fun g => allocated monthly_sup (snd g)) shares)
  /\ units_of "Demand" rows = Zsum (map (fun g => allocated monthly_dem (snd g)) shares)
  /\ length rows = (2 * length shares)%nat.
Proof.
  cbn zeta. unfold units_of, Zsum.
  induction shares as [|g shares [IH1 [IH2 IH3]]]; [repeat split|].
  cbn [flat_map app filter Category].
  change (String.eqb "Supply" "Supply") with true.
  change (String.eqb "Demand" "Demand") with true.
  change (String.eqb "Supply" "Demand") with false.
  change (String.eqb "Demand" "Supply") with false.
  cbn [map fold_right Units length].
  rewrite IH1, IH2, IH3. repeat split; lia.
Qed.

Lemma Qsum_map_div {A : Type} (f : A -> Q) (c : Q) (l : list A) :
  (Qsum (map (fun a => f a / c) l) == Qsum (map f l) / c)%Q.
Proof.
  induction l as [|a l IH]; cbn [map Qsum fold_right].
  - unfold Qdiv. ring.
  - fold (Qsum (map (fun a0 => (f a0 / c)%Q) l)). fold (Qsum (map f l)).
    rewrite IH. unfold Qdiv. ring.
Qed.

Lemma shares_of_rows (rows : list (string * Q)) :
  (forall r, In r rows -> (0 <= snd r)%Q) ->
  (0 < Qsum (map snd rows))%Q ->
  let shares := map (fun g => (fst g, (snd g / Qsum (map snd rows))%Q))
                    (groupby_sum rows) in
  Forall (fun g => (0 <= snd g)%Q) shares
  /\ (Qsum (map snd shares) == 1)%Q
  /\ length shares = length (group_keys (map fst rows)).
Proof.
  intros Hnn Hpos. cbn zeta. split; [|split].
  - apply Forall_map. eapply Forall_impl; [|apply (groupby_sum_nonneg rows Hnn)].
    intros g Hg. cbn beta in Hg. cbn [snd].
    apply Qle_shift_div_l; [exact Hpos|]. rewrite Qmult_0_l. exact Hg.
  - rewrite map_map. cbn [snd].
    rewrite (Qsum_map_div snd), groupby_sum_conservation. field. lra.
  - unfold groupby_sum. rewrite !length_map. reflexivity.
Qed.

(** X10.  When the donated pints are non-negative and not all zero and the
    two means are non-negative, the blood-type table is built, with a Supply
    row and a Demand row per blood type; the Supply units add up to at most
    the mean supply and fall short of it by at most one unit per blood type,
    and likewise the Demand units and the mean demand. *)
Theorem allocation_within_means (rows : list (string * Q)) (monthly_sup monthly_dem : Q) :
  (forall r, In r rows -> (0 <= snd r)%Q) ->
  (0 < Qsum (map snd rows))%Q ->
  (0 <= monthly_sup)%Q -> (0 <= monthly_dem)%Q ->
  exists df_bar,
    type_data monthly_sup monthly_dem (supply_dist rows) = Some df_bar
    /\ length df_bar = (2 * length (group_keys (map fst rows)))%nat
    /\ 0 <= units_of "Supply" df_bar
    /\ (inject_Z (units_of "Supply" df_bar) <= monthly_sup
        /\ monthly_sup <= inject_Z (units_of "Supply" df_bar)
                          + Qnat (length (group_keys (map fst rows))))%Q
    /\ 0 <= units_of "Demand" df_bar
    /\ (inject_Z (units_of "Demand" df_bar) <= monthly_dem
        /\ monthly_dem <= inject_Z (units_of "Demand" df_bar)
                          + Qnat (length (group_keys (map fst rows))))%Q.
Proof.
  intros Hnn Hpos Hs Hd.
  destruct (shares_of_rows rows Hnn Hpos) as [Hf [Hone Hlen]].
  rewrite supply_dist_finite by lra.
  set (shares := map (fun g => (fst g, (snd g / Qsum (map snd rows))%Q))
                     (groupby_sum rows)) in *.
  rewrite type_data_finite. eexists. split; [reflexivity|].
  destruct (units_of_flat_map monthly_sup monthly_dem shares
              (fun g => if 0 <? allocated monthly_dem (snd g)
                        then (inject_Z (allocated monthly_sup (snd g))
                              / inject_Z (allocated monthly_dem (snd g)))%Q
                        else 1%Q)) as [Us [Ud Ul]].
  cbn zeta in Us, Ud, Ul |- *. rewrite Us, Ud, Ul, <- Hlen.
  destruct (allocation_sum monthly_sup shares Hs Hf) as [[S1 S2] S3].
  destruct (allocation_sum monthly_dem shares Hd Hf) as [[D1 D2] D3].
  rewrite Hone in S1, S2, D1, D2.
  split; [reflexivity|].
  split; [exact S3 | split; [split; lra|]].
  split; [exact D3 | split; lra].
Qed.

Lemma allocation_within_means_witness :
  exists df_bar,
    type_data 1000 950 (supply_dist [("O+", 30%Q); ("A+", 20%Q); ("O+", 10%Q); ("B-", 3%Q)]%string)
    = Some df_bar
    /\ length df_bar = 6%nat
    /\ (inject_Z (units_of "Supply" df_bar) <= 1000)%Q.
Proof.
  destruct (allocation_within_means
              [("O+", 30%Q); ("A+", 20%Q); ("O+", 10%Q); ("B-", 3%Q)]%string 1000 950)
    as [df_bar [H1 [H2 [_ [[H3 _] _]]]]].
  - intros r [<-|[<-|[<-|[<-|[]]]]]; discriminate.
  - reflexivity.
  - discriminate.
  - discriminate.
  - exists df_bar. split; [exact H1 | split; [exact H2 | exact H3]].
Defined.

Lemma group_keys_nonempty (col : list string) : col <> [] -> group_keys col <> [].
Proof.
  intros Hne E. destruct col as [|k col]; [congruence|].
  assert (H : In k (group_keys (k :: col))) by (apply group_keys_In; left; reflexivity).
  rewrite E in H. contradiction.
Qed.

(** X11.  When the donated pints add up to zero on a non-empty table, every
    share is NaN or infinite and the blood-type table is never built: the
    first [int()] stops the script. *)
Theorem zero_total_stops (rows : list (string * Q)) (monthly_sup monthly_dem : Q) :
  rows <> [] -> (Qsum (map snd rows) == 0)%Q ->
  type_data monthly_sup monthly_dem (supply_dist rows) = None.
Proof.
  intros Hne Hz. unfold supply_dist, groupby_sum.
  rewrite (Qeq_eq_bool _ _ Hz), map_map. cbn [fst snd].
  destruct (group_keys (map fst rows)) as [|k keys] eqn:E.
  - exfalso. apply (group_keys_nonempty (map fst rows)); [|exact E].
    destruct rows; [congruence | discriminate].
  - reflexivity.
Qed.

Lemma zero_total_stops_witness :
  type_data 1000 950 (supply_dist [("O+", 0%Q); ("A+", 0%Q)]%string) = None.
Proof.
  apply zero_total_stops; [discriminate | reflexivity].
Defined.

(** ** The critical blood type *)

Lemma insert_by_coverage_perm (r : TypeRow) (l : list TypeRow) :
  Permutation (insert_by_coverage r l) (r :: l).
Proof.
  induction l as [|r' l IH]; cbn [insert_by_coverage]; [reflexivity|].
  destruct (Qle_bool (Coverage r) (Coverage r')); [reflexivity|].
  rewrite IH. apply perm_swap.
Qed.

Lemma sort_by_coverage_perm (l : list TypeRow) : Permutation (sort_by_coverage l) l.
Proof.
  unfold sort_by_coverage. induction l as [|r l IH]; [reflexivity|].
  cbn [fold_right]. rewrite insert_by_coverage_perm, IH. reflexivity.
Qed.

Lemma insert_by_coverage_sorted (r : TypeRow) (l : list TypeRow) :
  StronglySorted (fun a b => (Coverage a <= Coverage b)%Q) l ->
  StronglySorted (fun a b => (Coverage a <= Coverage b)%Q) (insert_by_coverage r l).
Proof.
  induction 1 as [|r' l Hs IH Hall]; cbn [insert_by_coverage].
  - constructor; constructor.
  - destruct (Qle_bool (Coverage r) (Coverage r')) eqn:E.
    + apply Qle_bool_iff in E. constructor; [constructor; assumption|].
      constructor; [exact E|].
      eapply Forall_impl; [|exact Hall]. intros a Ha. cbn in Ha |- *. lra.
    + assert (Hlt : (Coverage r' <= Coverage r)%Q).
      { apply Qlt_le_weak, Qnot_le_lt. intro H. apply Qle_bool_iff in H. congruence. }
      constructor; [exact IH|].
      apply (Permutation_Forall (Permutation_sym (insert_by_coverage_perm r l))).
      constructor; assumption.
Qed.

Lemma sort_by_coverage_sorted (l : list TypeRow) :
  StronglySorted (fun a b => (Coverage a <= Coverage b)%Q) (sort_by_coverage l).
Proof.
  unfold sort_by_coverage. induction l as [|r l IH]; [constructor|].
  cbn [fold_right]. apply insert_by_coverage_sorted. exact IH.
Qed.

Lemma priority_first_is_min (sort_values : list TypeRow -> list TypeRow)
    (df_bar : list TypeRow) :
  (forall l, Permutation (sort_values l) l) ->
  (forall l, StronglySorted (fun a b => (Coverage a <= Coverage b)%Q) (sort_values l)) ->
  df_bar <> [] ->
  exists critical_type lowest_coverage,
    priority sort_values df_bar = Some (critical_type, lowest_coverage)
    /\ (exists r, In r df_bar /\ BloodType r = critical_type
                  /\ lowest_coverage = (Coverage r * 100)%Q)
    /\ (forall r, In r df_bar -> (lowest_coverage <= Coverage r * 100)%Q)
    /\ (banner_color lowest_coverage = "#ff4b4b"%string
        <-> exists r, In r df_bar /\ (Coverage r < 1)%Q).
Proof.
  intros Hperm Hsorted Hne.
  destruct (sort_values df_bar) as [|first others] eqn:Es.
  { pose proof (Hperm df_bar) as P. rewrite Es in P.
    apply Permutation_nil in P. congruence. }
  exists (BloodType first), (Coverage first * 100)%Q.
  split; [unfold priority; rewrite Es; destruct df_bar; [congruence | reflexivity]|].
  assert (Hfirst : In first df_bar).
  { apply (Permutation_in _ (Hperm df_bar)). rewrite Es. left. reflexivity. }
  assert (Hmin : forall r, In r df_bar -> (Coverage first <= Coverage r)%Q).
  { intros r Hr. apply (Permutation_in _ (Permutation_sym (Hperm df_bar))) in Hr.
    rewrite Es in Hr. destruct Hr as [<-|Hr]; [apply Qle_refl|].
    pose proof (Hsorted df_bar) as S. rewrite Es in S.
    apply StronglySorted_inv in S. destruct S as [_ Hall].
    rewrite Forall_forall in Hall. exact (Hall r Hr). }
  split; [exists first; repeat split; assumption|].
  split.
  - intros r Hr. specialize (Hmin r Hr). lra.
  - unfold banner_color. destruct (Py.lt (Coverage first * 100) 100) eqn:E.
    + apply lt_true_iff in E. split; [|reflexivity].
      intros _. exists first. split; [exact Hfirst | lra].
    + apply lt_false_iff in E. split; [discriminate|].
      intros [r [Hr Hlt]]. specialize (Hmin r Hr). lra.
Qed.

(** X12.  Whatever sorting algorithm orders [df_bar] by coverage, the
    priority banner names a blood type of [df_bar] whose coverage is the
    lowest of the table, and it is red exactly when some row's coverage is
    below 1. *)
Theorem priority_is_lowest (sort_values : list TypeRow -> list TypeRow)
    (df_bar : list TypeRow) :
  (forall l, Permutation (sort_values l) l) ->
  (forall l, StronglySorted (fun a b => (Coverage a <= Coverage b)%Q) (sort_values l)) ->
  df_bar <> [] ->
  exists critical_type lowest_coverage,
    priority sort_values df_bar = Some (critical_type, lowest_coverage)
    /\ (exists r, In r df_bar /\ BloodType r = critical_type
                  /\ lowest_coverage = (Coverage r * 100)%Q)
    /\ (forall r, In r df_bar -> (lowest_coverage <= Coverage r * 100)%Q)
    /\ (banner_color lowest_coverage = "#ff4b4b"%string
        <-> exists r, In r df_bar /\ (Coverage r < 1)%Q).
Proof.
  exact (priority_first_is_min sort_values df_bar).
Qed.

Lemma priority_is_lowest_witness :
  exists critical_type lowest_coverage,
    priority sort_by_coverage
      [ {| BloodType := "A+"; Category := "Supply"; Units := 95; Coverage := 95 # 90 |};
        {| BloodType := "O-"; Category := "Supply"; Units := 7; Coverage := 7 # 9 |} ]
    = Some (critical_type, lowest_coverage)
    /\ banner_color lowest_coverage = "#ff4b4b"%string.
Proof.
  destruct (priority_is_lowest sort_by_coverage
      [ {| BloodType := "A+"; Category := "Supply"; Units := 95; Coverage := 95 # 90 |};
        {| BloodType := "O-"; Category := "Supply"; Units := 7; Coverage := 7 # 9 |} ]
      sort_by_coverage_perm sort_by_coverage_sorted)
    as [t [lowest [H1 [_ [_ H4]]]]].
  - discriminate.
  - exists t, lowest. split; [exact H1|]. apply H4.
    eexists. split; [right; left; reflexivity | reflexivity].
Defined.

Lemma coverage_below_one (t_sup t_dem : Z) :
  ((if 0 <? t_dem then inject_Z t_sup / inject_Z t_dem else 1) < 1)%Q
  <-> 0 < t_dem /\ t_sup < t_dem.
Proof.
  destruct (0 <? t_dem) eqn:E.
  - apply Z.ltb_lt in E.
    assert (Hd : (0 < inject_Z t_dem)%Q) by (rewrite <- (Zlt_Qlt 0); exact E).
    assert (Ex : (inject_Z t_sup / inject_Z t_dem * inject_Z t_dem == inject_Z t_sup)%Q)
      by (field; lra).
    split.
    + intro H. split; [exact E|]. rewrite Zlt_Qlt, <- Ex.
      pose proof (Qmult_lt_compat_r _ _ _ Hd H) as P.
      rewrite Qmult_1_l in P. exact P.
    + intros [_ H]. rewrite Zlt_Qlt in H.
      apply Qlt_shift_div_r; [exact Hd | lra].
  - apply Z.ltb_ge in E. split; [intro H; lra | intros [H _]; lia].
Qed.

(** X13.  With donated pints that do not add up to zero, the blood-type tab
    shows the red deficit banner exactly when some blood type has a positive
    allotted demand that its allotted supply does not reach; the type it
    names is a blood group of the data.  This holds for any sorting algorithm
    that orders the table by coverage. *)
Theorem deficit_banner (sort_values : list TypeRow -> list TypeRow)
    (rows : list (string * Q)) (monthly_sup monthly_dem : Q) :
  (forall l, Permutation (sort_values l) l) ->
  (forall l, StronglySorted (fun a b => (Coverage a <= Coverage b)%Q) (sort_values l)) ->
  rows <> [] -> ~ (Qsum (map snd rows) == 0)%Q ->
  exists df_bar critical_type lowest_coverage,
    type_data monthly_sup monthly_dem (supply_dist rows) = Some df_bar
    /\ priority sort_values df_bar = Some (critical_type, lowest_coverage)
    /\ In critical_type (map fst rows)
    /\ (banner_color lowest_coverage = "#ff4b4b"%string
        <-> exists bg_name ratio,
              In (bg_name, Some ratio) (supply_dist rows)
              /\ 0 < allocated monthly_dem ratio
              /\ allocated monthly_sup ratio < allocated monthly_dem ratio).
Proof.
  intros Hperm Hsorted Hne Htot.
  rewrite supply_dist_finite by exact Htot.
  set (shares := map (fun g => (fst g, (snd g / Qsum (map snd rows))%Q))
                     (groupby_sum rows)).
  rewrite type_data_finite. cbn zeta.
  set (two := fun g : string * Q =>
                [ {| BloodType := fst g; Category := "Supply";
                     Units := allocated monthly_sup (snd g);
                     Coverage := if 0 <? allocated monthly_dem (snd g)
                                 then (inject_Z (allocated monthly_sup (snd g))
                                       / inject_Z (allocated monthly_dem (snd g)))%Q
                                 else 1%Q |};
                  {| BloodType := fst g; Category := "Demand";
                     Units := allocated monthly_dem (snd g);
                     Coverage := if 0 <? allocated monthly_dem (snd g)
                                 then (inject_Z (allocated monthly_sup (snd g))
                                       / inject_Z (allocated monthly_dem (snd g)))%Q
                                 else 1%Q |} ]).
  assert (Hrow : forall r, In r (flat_map two shares) ->
            exists g, In g shares /\ BloodType r = fst g
                      /\ Coverage r = (if 0 <? allocated monthly_dem (snd g)
                                       then (inject_Z (allocated monthly_sup (snd g))
                                             / inject_Z (allocated monthly_dem (snd g)))%Q
                                       else 1%Q)).
  { intros r Hr. apply in_flat_map in Hr. destruct Hr as [g [Hg Hr]].
    exists g. split; [exact Hg|].
    destruct Hr as [<-|[<-|[]]]; split; reflexivity. }
  assert (Hkeys : forall g, In g shares -> In (fst g) (map fst rows)).
  { intros g Hg. unfold shares, groupby_sum in Hg. rewrite map_map in Hg.
    apply in_map_iff in Hg. destruct Hg as [k [<- Hk]]. cbn [fst].
    apply group_keys_In. exact Hk. }
  assert (Hshares : shares <> []).
  { unfold shares, groupby_sum. rewrite map_map. intro E.
    apply map_eq_nil in E.
    apply (group_keys_nonempty (map fst rows)); [|exact E].
    destruct rows; [congruence | discriminate]. }
  assert (Hdf : flat_map two shares <> []).
  { destruct shares as [|g sh]; [congruence | discriminate]. }
  destruct (priority_first_is_min sort_values (flat_map two shares) Hperm Hsorted Hdf)
    as [t [lowest [Hp [[r [Hr [Ht _]]] [_ Hred]]]]].
  exists (flat_map two shares), t, lowest.
  split; [reflexivity | split; [exact Hp | split]].
  - destruct (Hrow r Hr) as [g [Hg [Eb _]]]. rewrite <- Ht, Eb. apply Hkeys. exact Hg.
  - rewrite Hred. split.
    + intros [r' [Hr' Hlt]]. destruct (Hrow r' Hr') as [g [Hg [_ Ec]]].
      rewrite Ec in Hlt. apply coverage_below_one in Hlt.
      exists (fst g), (snd g). split; [|exact Hlt].
      apply in_map_iff. exists g. split; [reflexivity | exact Hg].
    + intros [bg [ratio [Hin Hlt]]].
      apply in_map_iff in Hin. destruct Hin as [g [Eg Hg]].
      injection Eg as <- <-.
      exists {| BloodType := fst g; Category := "Supply";
                Units := allocated monthly_sup (snd g);
                Coverage := if 0 <? allocated monthly_dem (snd g)
                            then (inject_Z (allocated monthly_sup (snd g))
                                  / inject_Z (allocated monthly_dem (snd g)))%Q
                            else 1%Q |}.
      split; [apply in_flat_map; exists g; split; [exact Hg | left; reflexivity]|].
      cbn [Coverage]. apply coverage_below_one. exact Hlt.
Qed.

Lemma deficit_banner_witness :
  exists df_bar critical_type lowest_coverage,
    type_data 1000 1200 (supply_dist [("O+", 30%Q); ("A+", 20%Q); ("O+", 10%Q)]%string)
    = Some df_bar
    /\ priority sort_by_coverage df_bar = Some (critical_type, lowest_coverage)
    /\ In critical_type ["O+"; "A+"; "O+"]%string.
Proof.
  destruct (deficit_banner sort_by_coverage
              [("O+", 30%Q); ("A+", 20%Q); ("O+", 10%Q)]%string 1000 1200
              sort_by_coverage_perm sort_by_coverage_sorted)
    as [df_bar [t [lowest [H1 [H2 [H3 _]]]]]].
  - discriminate.
  - intro H. discriminate H.
  - exists df_bar, t, lowest. split; [exact H1 | split; [exact H2 | exact H3]].
Defined.

(** ** Loading and filtering *)

Lemma known_city_has_state (c : string) (coords : Q * Q) :
  Loader.dict_get Loader.city_coords c = Some coords ->
  exists s, Loader.dict_get Loader.city_to_state c = Some s
            /\ In (c, s) Loader.city_to_state.
Proof.
  unfold Loader.city_coords, Loader.city_to_state. cbn [Loader.dict_get].
  repeat match goal with
         | |- context [String.eqb c ?k] =>
             let E := fresh "E" in
             destruct (String.eqb c k) eqn:E;
             [ apply String.eqb_eq in E; subst c; intros _;
               eexists; split; [reflexivity | cbn; tauto]
             | ]
         end.
  intro H. discriminate H.
Qed.

Lemma map_snd_combine {A B C : Type} (g : B -> C) (idx : list A) (rows : list B) :
  length idx = length rows ->
  map (fun p => g (snd p)) (combine idx rows) = map g rows.
Proof.
  revert idx. induction rows as [|d rows IH]; intros [|i idx] H; try discriminate.
  - reflexivity.
  - cbn. rewrite IH by (cbn in H; lia). reflexivity.
Qed.

Lemma jitter_column {R : Runtime} {C : Type} (g : Loader.Donor -> C)
    (rows : list Loader.Donor) :
  (forall d la lo,
      g {| Loader.created_at := Loader.created_at d;
           Loader.city := Loader.city d;
           Loader.pints_donated := Loader.pints_donated d;
           Loader.months_since_first_donation := Loader.months_since_first_donation d;
           Loader.months_active := Loader.months_active d;
           Loader.monthly_rate := Loader.monthly_rate d;
           Loader.state_name := Loader.state_name d;
           Loader.lat := la;
           Loader.lon := lo |} = g d) ->
  map g (Loader.jitter rows) = map g rows.
Proof.
  intro Hg. unfold Loader.jitter. rewrite map_map.
  rewrite <- (map_snd_combine g (seq 0 (length rows)) rows) by apply length_seq.
  apply map_ext. intros [i d]. cbn [fst snd]. apply Hg.
Qed.

Lemma enrich_all_spec {R : Runtime} (rows : list Loader.CsvRow) :
  map Loader.city (Loader.enrich_all rows)
  = filter (fun c => match Loader.dict_get Loader.city_coords c with
                     | Some _ => true
                     | None => false
                     end) (map Loader.csv_city rows)
  /\ Forall (fun d => exists s, Loader.state_name d = Some s
                                /\ In (Loader.city d, s) Loader.city_to_state)
       (Loader.enrich_all rows).
Proof.
  induction rows as [|r rows [IH1 IH2]]; [split; [reflexivity | constructor]|].
  cbn [Loader.enrich_all map filter]. unfold Loader.enrich.
  destruct (Loader.dict_get Loader.city_coords (Loader.csv_city r)) as [[la lo]|] eqn:E.
  - split; [cbn [map Loader.city]; rewrite IH1; reflexivity|].
    constructor; [|exact IH2]. cbn.
    exact (known_city_has_state _ _ E).
  - split; [exact IH1 | exact IH2].
Qed.


Lemma load_data_rows_have_state {R : Runtime} (rows : list Loader.CsvRow) (g : rng) :
  Forall (fun d => exists s, Loader.state_name d = Some s)
         (fst (Loader.load_data (Some rows) g)).
Proof.
  unfold Loader.load_data. cbn [fst].
  destruct (enrich_all_spec rows) as [_ H2].
  rewrite Forall_forall in H2 |- *. intros d Hd.
  assert (Hs : In (Loader.state_name d)
                  (map Loader.state_name (Loader.jitter (Loader.enrich_all rows))))
    by (apply in_map; exact Hd).
  rewrite (jitter_column Loader.state_name) in Hs by reflexivity.
  apply in_map_iff in Hs. destruct Hs as [d0 [E0 Hd0]].
  destruct (H2 d0 Hd0) as [s [Hs1 _]]. exists s. congruence.
Qed.

(** X16.  On the frame [load_data] returns, selecting every offered state
    shows the same rows as selecting none: the state filter never drops a
    loaded row for lack of a state. *)
Theorem all_states_is_everything {R : Runtime} (rows : list Loader.CsvRow) (g : rng) :
  let df := fst (Loader.load_data (Some rows) g) in
  Loader.df_local (Loader.all_states df) df = df
  /\ Loader.df_local [] df = df.
Proof.
  cbn zeta. split; [|reflexivity].
  pose proof (load_data_rows_have_state rows g) as Hst.
  set (df := fst (Loader.load_data (Some rows) g)) in *.
  unfold Loader.df_local.
  destruct (Loader.all_states df) as [|s0 sel] eqn:Esel; [reflexivity|].
  rewrite <- Esel. clear Esel.
  apply forallb_filter_id. apply forallb_forall. intros d Hd.
  rewrite Forall_forall in Hst. destruct (Hst d Hd) as [s Hs]. rewrite Hs.
  apply existsb_eqb_In. unfold Loader.all_states. apply group_keys_In.
  apply in_flat_map. exists d. split; [exact Hd|]. rewrite Hs. left. reflexivity.
Qed.

(** ** Labels read back as dates *)

Lemma four_digit_years : forallb four_digits (zrange 1000 (Z.to_nat 9000)) = true.
Proof. vm_compute. reflexivity. Qed.

Lemma year_has_four_digits (y : Z) :
  1000 <= y <= 9999 ->
  String.length (NilZero.string_of_uint (N.to_uint (Z.to_N y))) = 4%nat.
Proof.
  intro H. pose proof four_digit_years as F. rewrite forallb_forall in F.
  apply Nat.eqb_eq. apply (F y). unfold zrange. apply in_map_iff.
  exists (Z.to_nat (y - 1000)). split; [lia | apply in_seq; lia].
Qed.

Lemma substring_whole (s : string) : substring 0 (String.length s) s = s.
Proof.
  induction s as [|c s IH]; [reflexivity|]. cbn. rewrite IH. reflexivity.
Qed.

Lemma strptime_strftime (t : Timestamp) :
  1 <= month t <= 12 -> 1000 <= year t <= 9999 ->
  strptime_bY (strftime_bY t) = Some {| year := year t; month := month t; day := 1 |}.
Proof.
  intros Hm Hy. unfold strftime_bY.
  pose proof (year_has_four_digits (year t) Hy) as Hlen.
  set (digits := NilZero.string_of_uint (N.to_uint (Z.to_N (year t)))) in *.
  assert (Hd : NilZero.uint_of_string digits = Some (N.to_uint (Z.to_N (year t)))).
  { apply NilZero.usu. intro E. subst digits. rewrite E in Hlen. discriminate Hlen. }
  assert (Hsub : substring 0 4 digits = digits)
    by (rewrite <- Hlen; apply substring_whole).
  assert (Hyear : Z.of_N (N.of_uint (N.to_uint (Z.to_N (year t)))) = year t)
    by (rewrite Unsigned.of_to; lia).
  assert (Hcases : month t = 1 \/ month t = 2 \/ month t = 3 \/ month t = 4
                   \/ month t = 5 \/ month t = 6 \/ month t = 7 \/ month t = 8
                   \/ month t = 9 \/ month t = 10 \/ month t = 11 \/ month t = 12)
    by lia.
  unfold strptime_bY.
  repeat (destruct Hcases as [E|Hcases]; [rewrite E; cbn [month_abbr String.append
    String.length String.get substring]; rewrite Hlen; cbn [Nat.eqb andb Ascii.eqb
    Bool.eqb]; rewrite Hsub, Hd, Hyear; reflexivity|]).
  rewrite Hcases. cbn [month_abbr String.append String.length String.get substring].
  rewrite Hlen. cbn [Nat.eqb andb Ascii.eqb Bool.eqb]. rewrite Hsub, Hd, Hyear.
  reflexivity.
Qed.

(** X17.  A forecast label is read back by the trend chart as the first day
    of the month it names: for a date with a month between 1 and 12 and a
    four-digit year, parsing what ['%b %Y'] printed gives that month and
    year, day 1. *)
Theorem label_round_trip (t : Timestamp) :
  1 <= month t <= 12 -> 1000 <= year t <= 9999 ->
  strptime_bY (strftime_bY t) = Some {| year := year t; month := month t; day := 1 |}.
Proof.
  exact (strptime_strftime t).
Qed.

Lemma label_round_trip_witness :
  strptime_bY (strftime_bY {| year := 2025; month := 2; day := 17 |})
  = Some {| year := 2025; month := 2; day := 1 |}.
Proof.
  apply (label_round_trip {| year := 2025; month := 2; day := 17 |}); cbn; lia.
Defined.

Lemma forecast_loop_next_dates {R : Runtime} (S0 slope vol shock boost waste : Q)
    (d : Timestamp) (ms : list Z) (inv : Q) (g : rng) :
  map next_date (fst (forecast_loop S0 slope vol shock boost waste d ms inv g))
  = map (add_months d) ms.
Proof.
  revert inv g. induction ms as [|m ms IH]; intros inv g; [reflexivity|].
  rewrite forecast_loop_cons. cbn [fst map]. rewrite IH, forecast_step_eq.
  reflexivity.
Qed.

Lemma label_of_month (d : Timestamp) (m : Z) :
  12000 <= month_ord d + m <= 119999 ->
  strptime_bY (strftime_bY (add_months d m)) = Some (month_start (month_ord d + m)).
Proof.
  intro H. rewrite strptime_strftime.
  - unfold add_months, month_start. reflexivity.
  - unfold add_months. cbn [month].
    pose proof (Z.mod_pos_bound (month_ord d + m) 12 ltac:(lia)). lia.
  - unfold add_months. cbn [year].
    pose proof (Z.div_mod (month_ord d + m) 12 ltac:(lia)).
    pose proof (Z.mod_pos_bound (month_ord d + m) 12 ltac:(lia)). lia.
Qed.

(** X18.  The dates the trend chart plots for the forecast are the first
    days of the consecutive months that follow the anchor month: reading the
    labels of the returned forecast back with ['%b %Y'] gives the month
    starts [anchor + 1, anchor + 2, ...], one per row, as long as these
    months lie in years 1000 to 9999. *)
Theorem chart_dates {R : Runtime} (now : Timestamp) (g : rng)
    (df df' : DataFrame) (history : list MonthlyPoint)
    (months : Z) (shock boost waste : Q) :
  prepare_history df = Returned (df', history) ->
  12000 <= month_ord (current_date_of now history) + 1 ->
  month_ord (current_date_of now history) + months <= 119999 ->
  exists fc avg_sup avg_dem,
    fst (run_simulation now g df months shock boost waste)
    = Returned (fc, avg_sup, avg_dem)
    /\ map (fun p => strptime_bY (Date p)) fc
       = map (fun k => Some (month_start k))
             (zrange (month_ord (current_date_of now history) + 1) (Z.to_nat months)).
Proof.
  intros E Hlo Hhi. rewrite (run_simulation_returned now g df df' history _ _ _ _ E).
  cbn zeta. eexists _, _, _. split; [reflexivity|].
  rewrite map_map. cbn [emit Date].
  rewrite <- (map_map next_date (fun t => strptime_bY (strftime_bY t))).
  rewrite projection_eq, forecast_loop_next_dates, py_range_from_one.
  unfold zrange. rewrite !map_map. apply map_ext_in. intros i Hi.
  apply in_seq in Hi. rewrite label_of_month by lia. f_equal. f_equal. lia.
Qed.

Lemma chart_dates_witness :
  exists fc avg_sup avg_dem,
    fst (run_simulation (R := Sample.quiet)
           {| year := 2024; month := 5; day := 17 |} 7%nat
           [ {| created_at := Raw "2024-11-15"; pints_donated := 1001 |} ] 3 0 0 5)
    = Returned (fc, avg_sup, avg_dem)
    /\ map (fun p => strptime_bY (Date p)) fc
       = [ Some {| year := 2024; month := 12; day := 1 |};
           Some {| year := 2025; month := 1; day := 1 |};
           Some {| year := 2025; month := 2; day := 1 |} ].
Proof.
  destruct (chart_dates (R := Sample.quiet)
              {| year := 2024; month := 5; day := 17 |} 7%nat
              [ {| created_at := Raw "2024-11-15"; pints_donated := 1001 |} ]
              [ {| created_at := Stamp {| year := 2024; month := 11; day := 15 |};
                   pints_donated := 1001 |} ]
              [ {| hist_created_at := {| year := 2024; month := 11; day := 1 |};
                   hist_pints_donated := 1001 |} ]
              3 0 0 5 eq_refl) as [fc [a [b [H1 H2]]]].
  - cbn. lia.
  - cbn. lia.
  - exists fc, a, b. split; [exact H1 | exact H2].
Defined.
